(** * Customer Feedback Portal: a shallow embedding of [database.py] and [main.py]

    The three SQLAlchemy tables are lists of records in insertion (rowid)
    order.  A handler is a function from the request data, the user resolved
    by [get_current_user], the reading of [datetime.utcnow] and the store to
    a response and the committed store.  Values of [float] are exact
    rationals; a [datetime] is a number of microseconds. *)

From Stdlib Require Import List String Ascii ZArith QArith Qround Bool Lia.
From Stdlib Require Import Permutation Sorted DecimalString.
Import ListNotations.

Open Scope string_scope.
Open Scope Z_scope.

(** ** database.py: the enumerations

    Every enumeration derives from [str]; a member compares equal to its
    value and is stored in a [String] column as that value. *)

Module UserRole.
Definition CUSTOMER : string := "customer".
Definition SUPPORT : string := "support".
Definition ADMIN : string := "admin".
End UserRole.

Module Priority.
Definition LOW : string := "low".
Definition MEDIUM : string := "medium".
Definition HIGH : string := "high".
Definition members : list string := [LOW; MEDIUM; HIGH].
End Priority.

Module Status.
Definition NEW : string := "new".
Definition IN_REVIEW : string := "in-review".
Definition RESOLVED : string := "resolved".
Definition CLOSED : string := "closed".
Definition members : list string := [NEW; IN_REVIEW; RESOLVED; CLOSED].
End Status.

Module Category.
Definition BUG : string := "bug".
Definition FEATURE : string := "feature".
Definition COMPLAINT : string := "complaint".
Definition PRAISE : string := "praise".
Definition members : list string := [BUG; FEATURE; COMPLAINT; PRAISE].
End Category.

(** ** database.py: the tables *)

(** A [datetime], in microseconds. *)
Definition datetime := Z.

Record User := mkUser {
  u_id : Z;
  username : string;
  password_hash : string;
  role : string
}.

Record Feedback := mkFeedback {
  f_id : Z;
  title : string;
  description : string;
  category : string;
  priority : string;
  status : string;
  created_at : option datetime;
  closed_at : option datetime;
  f_user_id : Z
}.

Record Response := mkResponse {
  r_id : Z;
  content : string;
  r_created_at : option datetime;
  feedback_id : Z;
  r_user_id : Z
}.

Record DB := mkDB {
  users : list User;
  feedbacks : list Feedback;
  responses : list Response
}.

Definition empty_db : DB := mkDB [] [] [].

(** The rowid SQLite gives to an inserted row whose [Integer] primary key is
    left unset: one more than the largest in the table, 1 in an empty one. *)
Definition next_id (ids : list Z) : Z := 1 + fold_right Z.max 0 ids.

(** [db.add(row); db.commit()] on one table: [mk] is the row as the handler
    constructed it, waiting for its primary key.  The column [feedback_id]
    of [Response] is declared [ForeignKey("feedbacks.id")]; SQLite checks
    foreign keys only on a connection that has issued
    [PRAGMA foreign_keys=ON], which neither source file does, so an insert
    never fails on it. *)
Definition insert {A : Type} (key : A -> Z) (mk : Z -> A) (table : list A)
    : list A :=
  table ++ [mk (next_id (map key table))].

(** [db.add_all(rows); db.commit()]. *)
Definition insert_all {A : Type} (key : A -> Z) (rows : list (Z -> A))
    (table : list A) : list A :=
  fold_left (fun t mk => insert key mk t) rows table.

(** [db.query(Feedback).filter(Feedback.id == feedback_id).first()]. *)
Definition query_feedback (feedback_id : Z) (db : DB) : option Feedback :=
  find (fun f => f_id f =? feedback_id) (feedbacks db).

(** [db.query(User).filter(User.username == name).first()]. *)
Definition query_user_by_name (name : string) (db : DB) : option User :=
  find (fun u => String.eqb (username u) name) (users db).

(** Attribute writes on the object returned by [query_feedback], flushed
    by [db.commit()]: the row of that primary key is rewritten. *)
Fixpoint update_first (p : Feedback -> bool) (g : Feedback -> Feedback)
    (l : list Feedback) : list Feedback :=
  match l with
  | [] => []
  | f :: t => if p f then g f :: t else f :: update_first p g t
  end.

Definition set_status (s : string) (f : Feedback) : Feedback :=
  mkFeedback (f_id f) (title f) (description f) (category f) (priority f)
    s (created_at f) (closed_at f) (f_user_id f).

Definition set_closed_at (t : datetime) (f : Feedback) : Feedback :=
  mkFeedback (f_id f) (title f) (description f) (category f) (priority f)
    (status f) (created_at f) (Some t) (f_user_id f).

(** ** Python values the handlers rely on *)

(** [x in [a, b, ...]] on strings. *)
Definition str_in (x : string) (l : list string) : bool :=
  existsb (String.eqb x) l.

(** Truth value of an [Optional[str]]: [None] and the empty string are
    false. *)
Definition truthy_str (o : option string) : bool :=
  match o with
  | None => false
  | Some s => negb (String.eqb s "")
  end.

(** [str(n)] for an [int]. *)
Definition str_of_int (n : Z) : string := NilZero.string_of_int (Z.to_int n).

(** What the name [status] can denote inside a handler: the module
    [fastapi.status] imported at the top of [main.py], or a [str]. *)
Inductive pyobj :=
| fastapi_status
| PyStr (s : string).

Inductive exn :=
| AttributeError (type_name attr : string)
| StopIteration
| IndexError.

(** [o.HTTP_302_FOUND]: the module has the attribute, a [str] has not. *)
Definition HTTP_302_FOUND (o : pyobj) : exn + Z :=
  match o with
  | fastapi_status => inr 302
  | PyStr _ => inl (AttributeError "str" "HTTP_302_FOUND")
  end.

(** ** main.py: responses *)

(** The data a handler hands to a template (the [request] entry is left
    out). *)
Inductive Context :=
| LoginCtx (error : option string)
| SubmitCtx (user : User) (categories priorities : list string)
| ListCtx (user : User) (feedbacks : list Feedback)
    (categories statuses : list string)
    (current_category current_status : option string)
| DetailCtx (user : User) (feedback : Feedback) (statuses : list string)
| DashboardCtx (user : User) (total_feedback open_items : nat)
    (avg_resolution_hours : Q) (cat_breakdown : list (string * nat)).

(** What the transport layer receives from a handler: a response, or an
    exception the handler did not catch. *)
Inductive HttpResponse :=
| RedirectResponse (url : string) (status_code : Z)
| TemplateResponse (name : string) (context : Context)
| JSONResponse (body : list (string * string))
| Unhandled (e : exn).

(** [RedirectResponse(url)] without [status_code]: Starlette's default. *)
Definition redirect (url : string) : HttpResponse := RedirectResponse url 307.

(** [RedirectResponse(url=url, status_code=status.HTTP_302_FOUND)], where
    [status_name] is what the name [status] denotes at the call. *)
Definition redirect_found (status_name : pyobj) (url : string) : HttpResponse :=
  match HTTP_302_FOUND status_name with
  | inr code => RedirectResponse url code
  | inl e => Unhandled e
  end.

Definition detail_url (feedback_id : Z) : string :=
  "/feedback/" ++ str_of_int feedback_id.

(** ** main.py: authentication *)

(** The session holds at most the key ["user_id"]. *)
Definition Session := option Z.

Definition get_current_user (session : Session) (db : DB) : option User :=
  match session with
  | None => None
  | Some user_id =>
      if user_id =? 0 then None
      else find (fun u => u_id u =? user_id) (users db)
  end.

Definition require_role (user : option User) (roles : list string) : bool :=
  match user with
  | None => false
  | Some u => str_in (role u) roles
  end.

(** ** main.py: routes that only read *)

Definition health_check : HttpResponse := JSONResponse [("status", "ok")].

Definition index (user : option User) : HttpResponse :=
  match user with
  | None => redirect "/login"
  | Some u =>
      if String.eqb (role u) UserRole.ADMIN then redirect "/dashboard"
      else redirect "/feedback"
  end.

Definition login_page : HttpResponse :=
  TemplateResponse "login.html" (LoginCtx None).

Definition logout : HttpResponse * Session := (redirect "/login", None).

Definition new_feedback_page (user : option User) : HttpResponse :=
  match user with
  | None => redirect "/login"
  | Some u =>
      if negb (str_in (role u) [UserRole.CUSTOMER; UserRole.SUPPORT])
      then redirect "/feedback"
      else TemplateResponse "submit_feedback.html"
             (SubmitCtx u Category.members Priority.members)
  end.

(** [ORDER BY created_at DESC]: NULL sorts below every value in SQLite, so
    last here.  Rows with equal keys are kept in rowid order. *)
Definition created_ge (a b : Feedback) : bool :=
  match created_at a, created_at b with
  | _, None => true
  | None, Some _ => false
  | Some x, Some y => y <=? x
  end.

Fixpoint insert_desc (f : Feedback) (l : list Feedback) : list Feedback :=
  match l with
  | [] => [f]
  | g :: t => if created_ge f g then f :: l else g :: insert_desc f t
  end.

Definition order_by_created_at_desc (l : list Feedback) : list Feedback :=
  fold_right insert_desc [] l.

(** [query.filter(Feedback.category == c)] and
    [query.filter(Feedback.status == s)]. *)
Definition filter_category (c : string) (query : list Feedback) : list Feedback :=
  filter (fun f => String.eqb (category f) c) query.

Definition filter_status (s : string) (query : list Feedback) : list Feedback :=
  filter (fun f => String.eqb (status f) s) query.

Definition feedback_list (category status_filter : option string)
    (user : option User) (db : DB) : HttpResponse :=
  match user with
  | None => redirect "/login"
  | Some u =>
      let query := feedbacks db in
      let query :=
        match category with
        | Some c =>
            if truthy_str category && negb (String.eqb c "all")
            then filter_category c query
            else query
        | None => query
        end in
      let query :=
        match status_filter with
        | Some s =>
            if truthy_str status_filter && negb (String.eqb s "all")
            then filter_status s query
            else query
        | None => query
        end in
      TemplateResponse "feedback_list.html"
        (ListCtx u (order_by_created_at_desc query)
           Category.members Status.members category status_filter)
  end.

Definition feedback_detail (feedback_id : Z) (user : option User) (db : DB)
    : HttpResponse :=
  match user with
  | None => redirect "/login"
  | Some u =>
      match query_feedback feedback_id db with
      | None => redirect "/feedback"
      | Some fb =>
          TemplateResponse "feedback_detail.html" (DetailCtx u fb Status.members)
      end
  end.

(** *** The dashboard *)

(** [timedelta.total_seconds()]. *)
Definition total_seconds (d : Z) : Q := d # 1000000.

(** [[(f.closed_at - f.created_at).total_seconds() for f in l
      if f.closed_at and f.created_at]]; a [datetime] is always true. *)
Definition resolution_seconds (l : list Feedback) : list Q :=
  flat_map (fun f =>
    match closed_at f, created_at f with
    | Some c, Some s => [total_seconds (c - s)]
    | _, _ => []
    end) l.

Definition sum (l : list Q) : Q := fold_left Qplus l 0%Q.

(** [round(x)] to the nearest integer, ties to the even one. *)
Definition round_half_even (x : Q) : Z :=
  let f := Qfloor x in
  match Qcompare (x - inject_Z f) (1 # 2) with
  | Lt => f
  | Gt => f + 1
  | Eq => if Z.even f then f else f + 1
  end.

(** [round(x, 1)]. *)
Definition round1 (x : Q) : Q :=
  Qred (inject_Z (round_half_even (x * 10)) / 10).

Definition avg_resolution_hours (fbs : list Feedback) : Q :=
  let closed_feedbacks := filter_status Status.CLOSED fbs in
  match closed_feedbacks with
  | [] => 0%Q
  | _ :: _ =>
      let total_time := sum (resolution_seconds closed_feedbacks) in
      round1 ((total_time / inject_Z (Z.of_nat (List.length closed_feedbacks)))
              / 3600)
  end.

Definition total_feedback (fbs : list Feedback) : nat := List.length fbs.

Definition open_items (fbs : list Feedback) : nat :=
  List.length (filter (fun f => str_in (status f) [Status.NEW; Status.IN_REVIEW]) fbs).

Definition cat_breakdown (fbs : list Feedback) : list (string * nat) :=
  map (fun cat => (cat, List.length (filter_category cat fbs))) Category.members.

Definition dashboard (user : option User) (db : DB) : HttpResponse :=
  match user with
  | None => redirect "/login"
  | Some u =>
      if negb (String.eqb (role u) UserRole.ADMIN) then redirect "/feedback"
      else TemplateResponse "dashboard.html"
             (DashboardCtx u (total_feedback (feedbacks db))
                (open_items (feedbacks db))
                (avg_resolution_hours (feedbacks db))
                (cat_breakdown (feedbacks db)))
  end.

(** ** main.py: routes that write *)

(** [status] is not passed to [Feedback(...)] from the form; [created_at]
    is filled by its column default when the row is inserted. *)
Definition submit_feedback (title category description priority : string)
    (user : option User) (now : datetime) (db : DB) : HttpResponse * DB :=
  match user with
  | None => (redirect "/login", db)
  | Some u =>
      let new_fb := fun id =>
        mkFeedback id title description category priority Status.NEW
          (Some now) None (u_id u) in
      (redirect_found fastapi_status "/feedback",
       mkDB (users db) (insert f_id new_fb (feedbacks db)) (responses db))
  end.

Definition add_response (feedback_id : Z) (content : string)
    (user : option User) (now : datetime) (db : DB) : HttpResponse * DB :=
  match user with
  | None => (redirect (detail_url feedback_id), db)
  | Some u =>
      if negb (str_in (role u) [UserRole.SUPPORT; UserRole.ADMIN])
      then (redirect (detail_url feedback_id), db)
      else
        let resp := fun id =>
          mkResponse id content (Some now) feedback_id (u_id u) in
        (redirect_found fastapi_status (detail_url feedback_id),
         mkDB (users db) (feedbacks db) (insert r_id resp (responses db)))
  end.

(** [fb.status = status], then [fb.closed_at = datetime.utcnow()] when
    [status == Status.CLOSED]. *)
Definition write_status (status : string) (now : datetime) (fb : Feedback)
    : Feedback :=
  let fb := set_status status fb in
  if String.eqb status Status.CLOSED then set_closed_at now fb else fb.

(** The form parameter is named [status]: inside this handler the name
    denotes the submitted [str], also in the last line, which is evaluated
    after [db.commit()]. *)
Definition update_status (feedback_id : Z) (status : string)
    (user : option User) (now : datetime) (db : DB) : HttpResponse * DB :=
  match user with
  | None => (redirect (detail_url feedback_id), db)
  | Some u =>
      if negb (str_in (role u) [UserRole.SUPPORT; UserRole.ADMIN])
      then (redirect (detail_url feedback_id), db)
      else
        let db :=
          match query_feedback feedback_id db with
          | Some fb =>
              mkDB (users db)
                   (update_first (fun f => f_id f =? feedback_id)
                      (write_status status now) (feedbacks db))
                   (responses db)
          | None => db
          end in
        (redirect_found (PyStr status) (detail_url feedback_id), db)
  end.

(** ** main.py: login and the seeding at startup

    [bcrypt] is a collaborator: [bcrypt_hashpw password salt] and
    [bcrypt_checkpw password hashed] are taken as they come. *)

Section Bcrypt.

Variable bcrypt_hashpw : string -> string -> string.
Variable bcrypt_checkpw : string -> string -> bool.

Definition hash_password (salt password : string) : string :=
  bcrypt_hashpw password salt.

Definition verify_password (plain_password hashed_password : string) : bool :=
  bcrypt_checkpw plain_password hashed_password.

Definition login (username password : string) (session : Session) (db : DB)
    : HttpResponse * Session :=
  match query_user_by_name username db with
  | None =>
      (TemplateResponse "login.html" (LoginCtx (Some "Invalid credentials")),
       session)
  | Some user =>
      if negb (verify_password password (password_hash user))
      then (TemplateResponse "login.html" (LoginCtx (Some "Invalid credentials")),
            session)
      else
        (if String.eqb (role user) UserRole.ADMIN
         then redirect_found fastapi_status "/dashboard"
         else redirect_found fastapi_status "/feedback",
         Some (u_id user))
  end.

(** *** Seeding

    What the seeding reads from outside: the salts of [bcrypt.gensalt], the
    draws of the [random] module and the readings of [datetime.utcnow],
    each numbered in the order of the calls. *)
Record Entropy := mkEntropy {
  gensalt : nat -> string;
  random : nat -> nat;
  utcnow : nat -> datetime
}.

Definition result (A : Type) : Type := exn + A.

Definition bind {A B : Type} (m : result A) (k : A -> result B) : result B :=
  match m with
  | inl e => inl e
  | inr a => k a
  end.

Notation "x <- m ;; k" := (bind m (fun x => k))
  (at level 61, m at next level, right associativity).
Notation "' p <- m ;; k" := (bind m (fun p => k))
  (at level 61, p pattern, m at next level, right associativity).

(** [random.choice(l)], the [k]-th draw; an empty [l] raises. *)
Definition choice {A : Type} (e : Entropy) (k : nat) (l : list A) : result A :=
  match nth_error l (random e k mod List.length l)%nat with
  | Some x => inr x
  | None => inl IndexError
  end.

(** [random.randint(0, 30)], the [k]-th draw. *)
Definition randint_0_30 (e : Entropy) (k : nat) : Z :=
  Z.of_nat (random e k mod 31)%nat.

(** [datetime.timedelta(days=d)]. *)
Definition timedelta_days (d : Z) : Z := d * 86400 * 1000000.

(** [next(u for u in users_db if u.role == r)]. *)
Definition next_with_role (r : string) (users_db : list User) : result User :=
  match find (fun u => String.eqb (role u) r) users_db with
  | Some u => inr u
  | None => inl StopIteration
  end.

Definition titles : list string :=
  ["Login issue"; "Great feature"; "Slow loading"; "Color scheme";
   "Bug in report"; "Suggestion for UI"; "API error"; "Export data";
   "Mobile view broken"; "Thanks for help"].

Definition descriptions : list string :=
  ["I cannot login with my account."; "Love the new dashboard!";
   "Page takes 5s to load."; "Can we have dark mode?";
   "Report shows wrong numbers."; "Move button to left.";
   "500 error on /api/v1"; "Need CSV export."; "Menu overlaps on phone.";
   "Support was very fast."].

(** The [Feedback(...)] of iteration [i] of the first loop; [list[i]]
    raises out of range. *)
Definition seed_feedback (e : Entropy) (customer_id : Z) (i : nat)
    : result (Z -> Feedback) :=
  match nth_error titles i, nth_error descriptions i with
  | Some t, Some d =>
      c <- choice e (4 * i) Category.members ;;
      p <- choice e (4 * i + 1) Priority.members ;;
      s <- choice e (4 * i + 2) Status.members ;;
      inr (fun id =>
             mkFeedback id t d c p s
               (Some (utcnow e i - timedelta_days (randint_0_30 e (4 * i + 3))))
               None customer_id)
  | _, _ => inl IndexError
  end.

Fixpoint seed_feedbacks (e : Entropy) (customer_id : Z) (range : list nat)
    : result (list (Z -> Feedback)) :=
  match range with
  | [] => inr []
  | i :: rest =>
      fb <- seed_feedback e customer_id i ;;
      fbs <- seed_feedbacks e customer_id rest ;;
      inr (fb :: fbs)
  end.

(** Assignment to an attribute of the [j]-th object of a Python list. *)
Fixpoint update_nth (j : nat) (g : Feedback -> Feedback) (l : list Feedback)
    : list Feedback :=
  match l, j with
  | [], _ => []
  | f :: t, O => g f :: t
  | f :: t, S j' => f :: update_nth j' g t
  end.

(** The second loop: [feedbacks] are the objects inserted by the first,
    shared with the session, so that a write to [fb.status] is seen by a
    later iteration and stored by the last [db.commit()]. *)
Fixpoint seed_responses (e : Entropy) (support_id : Z) (range : list nat)
    (responses : list (Z -> Response)) (feedbacks : list Feedback)
    : result (list (Z -> Response) * list Feedback) :=
  match range with
  | [] => inr (responses, feedbacks)
  | i :: rest =>
      let j := (random e (40 + i) mod List.length feedbacks)%nat in
      fb <- choice e (40 + i) feedbacks ;;
      let resp := fun id =>
        mkResponse id
          ("We are looking into this. (Response "
             ++ str_of_int (Z.of_nat (i + 1)) ++ ")")
          (Some (utcnow e (10 + i))) (f_id fb) support_id in
      let feedbacks :=
        if String.eqb (status fb) Status.NEW
        then update_nth j (set_status Status.IN_REVIEW) feedbacks
        else feedbacks in
      seed_responses e support_id rest (responses ++ [resp]) feedbacks
  end.

(** The list [users] of [startup_event]. *)
Definition seed_users (e : Entropy) : list (Z -> User) :=
  [ (fun id => mkUser id "customer" (hash_password (gensalt e 0) "password")
                 UserRole.CUSTOMER);
    (fun id => mkUser id "support" (hash_password (gensalt e 1) "password")
                 UserRole.SUPPORT);
    (fun id => mkUser id "admin" (hash_password (gensalt e 2) "password")
                 UserRole.ADMIN) ].

Definition startup_event (e : Entropy) (db : DB) : result DB :=
  let stored_feedbacks := feedbacks db in
  let stored_responses := responses db in
  match users db with
  | _ :: _ => inr db
  | [] =>
      let users := seed_users e in
      let users_db := insert_all u_id users [] in
      customer <- next_with_role UserRole.CUSTOMER users_db ;;
      support <- next_with_role UserRole.SUPPORT users_db ;;
      feedbacks <- seed_feedbacks e (u_id customer) (seq 0 10) ;;
      let table := insert_all f_id feedbacks stored_feedbacks in
      let feedbacks := skipn (List.length stored_feedbacks) table in
      ' (responses, feedbacks) <-
        seed_responses e (u_id support) (seq 0 5) [] feedbacks ;;
      inr (mkDB users_db
             (firstn (List.length stored_feedbacks) table ++ feedbacks)
             (insert_all r_id responses stored_responses))
  end.

(** *** Dispatch

    A request is its route with the path, query and form parameters, the
    session carried by its cookie and the reading of the clock while it is
    served. *)
Inductive Route :=
| GET_health
| GET_index
| GET_login
| POST_login (username password : string)
| GET_logout
| GET_feedback_new
| POST_feedback_new (title category description priority : string)
| GET_feedback (category status_filter : option string)
| GET_feedback_id (feedback_id : Z)
| POST_feedback_id_response (feedback_id : Z) (content : string)
| POST_feedback_id_status (feedback_id : Z) (status : string)
| GET_dashboard.

Record Request := mkRequest {
  route : Route;
  session : Session;
  now : datetime
}.

Record Outcome := mkOutcome {
  response : HttpResponse;
  session_after : Session;
  db_after : DB
}.

Definition handle (req : Request) (db : DB) : Outcome :=
  let user := get_current_user (session req) db in
  let reads := fun r => mkOutcome r (session req) db in
  let writes := fun (o : HttpResponse * DB) =>
    mkOutcome (fst o) (session req) (snd o) in
  match route req with
  | GET_health => reads health_check
  | GET_index => reads (index user)
  | GET_login => reads login_page
  | POST_login username password =>
      let o := login username password (session req) db in
      mkOutcome (fst o) (snd o) db
  | GET_logout => mkOutcome (fst logout) (snd logout) db
  | GET_feedback_new => reads (new_feedback_page user)
  | POST_feedback_new title category description priority =>
      writes (submit_feedback title category description priority user
                (now req) db)
  | GET_feedback category status_filter =>
      reads (feedback_list category status_filter user db)
  | GET_feedback_id feedback_id => reads (feedback_detail feedback_id user db)
  | POST_feedback_id_response feedback_id content =>
      writes (add_response feedback_id content user (now req) db)
  | POST_feedback_id_status feedback_id status =>
      writes (update_status feedback_id status user (now req) db)
  | GET_dashboard => reads (dashboard user db)
  end.

(** The store after a sequence of requests, served one after the other. *)
Definition run (reqs : list Request) (db : DB) : DB :=
  fold_left (fun d req => db_after (handle req d)) reqs db.

(** The process started once per element of [es], on the store the run
    before left. *)
Fixpoint startup_events (es : list Entropy) (db : DB) : result DB :=
  match es with
  | [] => inr db
  | e :: rest =>
      db <- startup_event e db ;;
      startup_events rest db
  end.

End Bcrypt.

(** ** Fixtures for evaluating the handlers

    Stand-ins for the [bcrypt] collaborator and one run of the seeding, on
    an empty store, with fixed draws. *)

Definition demo_hashpw (password salt : string) : string :=
  salt ++ "$" ++ password.

Definition demo_checkpw (plain hashed : string) : bool :=
  String.eqb hashed ("salt$" ++ plain).

(** Draws 0 to 39 are those of the ten [Feedback] rows, four each
    (category, priority, status, days); draws 40 to 44 pick the rows the
    five responses go to. *)
Definition demo_draws : list nat :=
  [0; 0; 3; 2;   1; 1; 0; 30;  2; 2; 1; 7;   3; 0; 2; 12;  0; 1; 0; 0;
   1; 2; 0; 3;   2; 0; 1; 21;  3; 1; 2; 9;   0; 2; 0; 15;  1; 0; 0; 1;
   1; 1; 4; 0; 9]%nat.

Definition demo_entropy : Entropy :=
  mkEntropy (fun _ => "salt")
            (fun k => nth k demo_draws 0%nat)
            (fun k => 1700000000000000 + Z.of_nat k).

Definition seeded_db : DB :=
  match startup_event demo_hashpw demo_entropy empty_db with
  | inr db => db
  | inl _ => empty_db
  end.

(** The sessions of the three seeded users. *)
Definition customer_session : Session := Some 1.
Definition support_session : Session := Some 2.
Definition admin_session : Session := Some 3.

(** [T], one hour after [T], in microseconds. *)
Definition T0 : datetime := 1700000100000000.
Definition T0_plus_3600s : datetime := T0 + 3600 * 1000000.

(** ** Reading a response *)

Definition redirects_to_login (r : HttpResponse) : bool :=
  match r with
  | RedirectResponse url _ => String.eqb url "/login"
  | _ => false
  end.

(** The rows a response of [feedback_list] shows. *)
Definition listed (r : HttpResponse) : list Feedback :=
  match r with
  | TemplateResponse _ (ListCtx _ l _ _ _ _) => l
  | _ => []
  end.

(** The average a response of [dashboard] shows. *)
Definition shown_avg (r : HttpResponse) : option Q :=
  match r with
  | TemplateResponse _ (DashboardCtx _ _ _ avg _) => Some avg
  | _ => None
  end.

(** Follows the words of the specification: the mean of
    (closed_at - created_at), in hours rounded to one decimal place, over
    exactly the rows whose status is closed and whose two timestamps are
    present; 0 when there is no such row. *)
Definition spec_avgResolutionHours (fbs : list Feedback) : Q :=
  let rows :=
    filter (fun f =>
      String.eqb (status f) Status.CLOSED &&
      match created_at f, closed_at f with
      | Some _, Some _ => true
      | _, _ => false
      end) fbs in
  match rows with
  | [] => 0%Q
  | _ :: _ =>
      round1 ((sum (resolution_seconds rows)
               / inject_Z (Z.of_nat (List.length rows))) / 3600)
  end.

(** Follows the words of the specification: a parameter that is present
    and not equal to all must be matched. *)
Definition spec_passes (p : option string) (v : string) : bool :=
  match p with
  | None => true
  | Some x => String.eqb x "all" || String.eqb v x
  end.

(** What the handler tests: a parameter that is present, not empty and
    not equal to all must be matched. *)
Definition passes (p : option string) (v : string) : bool :=
  match p with
  | None => true
  | Some x => String.eqb x "" || String.eqb x "all" || String.eqb v x
  end.

(** [newest_first a b]: [a] may come before [b] in descending order of
    [created_at]. *)
Definition newest_first (a b : Feedback) : Prop := created_ge a b = true.

(** [same_but_status f g]: [g] is [f] but for [status] and [closed_at]. *)
Definition same_but_status (f g : Feedback) : Prop :=
  f_id g = f_id f /\ title g = title f /\ description g = description f /\
  category g = category f /\ priority g = priority f /\
  created_at g = created_at f /\ f_user_id g = f_user_id f.

(** [grows db db']: the users are the same, the responses of [db] are the
    first responses of [db'], and the feedback rows of [db] are the first
    rows of [db'], each the same but for [status] and [closed_at]. *)
Definition grows (db db' : DB) : Prop :=
  users db' = users db /\
  (exists new, responses db' = (responses db ++ new)%list) /\
  (exists kept new,
     feedbacks db' = (kept ++ new)%list /\
     Forall2 same_but_status (feedbacks db) kept).

(** Primary keys: pairwise different and positive. *)
Definition keyed (ids : list Z) : Prop :=
  NoDup ids /\ Forall (fun i => 0 < i) ids.

Definition well_keyed (db : DB) : Prop :=
  keyed (map u_id (users db)) /\
  keyed (map f_id (feedbacks db)) /\
  keyed (map r_id (responses db)).


(** The rows of [fbs] whose category is one of the enumeration. *)
Definition known_category (fbs : list Feedback) : list Feedback :=
  filter (fun f => str_in (category f) Category.members) fbs.

(** [sum(counts)] over the entries of a breakdown. *)
Definition breakdown_total (b : list (string * nat)) : nat :=
  fold_right (fun kv acc => (snd kv + acc)%nat) 0%nat b.

(** [reviewed f g]: [g] is [f], or [f] with its status new turned into
    in-review. *)
Definition reviewed (f g : Feedback) : Prop :=
  g = f \/ (status f = Status.NEW /\ g = set_status Status.IN_REVIEW f).

(** A feedback row as the seeding makes it, for the owner [cid]. *)
Definition seeded_row (e : Entropy) (cid : Z) (f : Feedback) : Prop :=
  closed_at f = None /\
  f_user_id f = cid /\
  In (category f) Category.members /\
  In (priority f) Priority.members /\
  In (status f) Status.members /\
  exists i d,
    (i < 10)%nat /\ 0 <= d <= 30 /\
    nth_error titles i = Some (title f) /\
    nth_error descriptions i = Some (description f) /\
    created_at f = Some (utcnow e i - timedelta_days d).

(** * Properties *)

(** ** Status updates by staff *)

(** C1.  For a user whose role is support or admin, [update_status] does
    not answer with a redirect: whatever the feedback id and the submitted
    value, the expression [status.HTTP_302_FOUND] of its last line is
    evaluated on the submitted string and raises [AttributeError], which
    nothing catches; the write to the store, if any, is committed
    before. *)
Theorem update_status_staff_unhandled :
  forall feedback_id status u now db,
    str_in (role u) [UserRole.SUPPORT; UserRole.ADMIN] = true ->
    fst (update_status feedback_id status (Some u) now db)
    = Unhandled (AttributeError "str" "HTTP_302_FOUND").
Proof.
  intros feedback_id status u now db Hrole.
  unfold update_status. rewrite Hrole. reflexivity.
Qed.

Lemma update_status_staff_unhandled_witness :
  str_in (role (mkUser 2 "support" "salt$password" "support"))
         [UserRole.SUPPORT; UserRole.ADMIN] = true /\
  fst (update_status 2 "closed"
         (Some (mkUser 2 "support" "salt$password" "support"))
         T0 seeded_db)
  = Unhandled (AttributeError "str" "HTTP_302_FOUND").
Proof.
  split.
  - reflexivity.
  - apply update_status_staff_unhandled. reflexivity.
Defined.

(** The same request through the dispatcher: the store has the new status
    and [closed_at], the transport layer gets the exception. *)
Example update_status_closed_by_support :
  let o := handle demo_checkpw
             (mkRequest (POST_feedback_id_status 2 "closed") support_session T0)
             seeded_db in
  response o = Unhandled (AttributeError "str" "HTTP_302_FOUND") /\
  option_map (fun f => (status f, closed_at f)) (query_feedback 2 (db_after o))
  = Some ("closed", Some T0).
Proof. vm_compute. split; reflexivity. Qed.

(** An id that is not in the table: nothing is written, and the exception
    is raised all the same. *)
Example update_status_missing_id :
  let o := handle demo_checkpw
             (mkRequest (POST_feedback_id_status 999 "closed") support_session T0)
             seeded_db in
  response o = Unhandled (AttributeError "str" "HTTP_302_FOUND") /\
  db_after o = seeded_db.
Proof. vm_compute. split; reflexivity. Qed.

(** ** Who may create feedback *)

(** C2.  [submit_feedback] checks only that there is a user: the admin of
    the seeded store, whose role is neither customer nor support, posts to
    /feedback/new and the table gains a row owned by the admin.  The page
    of the same route, [new_feedback_page], turns the admin away. *)
Theorem submit_feedback_admin_creates_row :
  let req := mkRequest (POST_feedback_new "t" "bug" "d" "low") admin_session T0 in
  let o := handle demo_checkpw req seeded_db in
  option_map role (get_current_user (session req) seeded_db)
  = Some UserRole.ADMIN /\
  new_feedback_page (get_current_user (session req) seeded_db)
  = redirect "/feedback" /\
  response o = RedirectResponse "/feedback" 302 /\
  feedbacks (db_after o)
  = (feedbacks seeded_db
     ++ [mkFeedback 11 "t" "d" "bug" "low" Status.NEW (Some T0) None 3])%list.
Proof. vm_compute. repeat split; reflexivity. Qed.

(** For a user of any role the handler inserts the row. *)
Lemma submit_feedback_inserts :
  forall title category description priority u now db,
    feedbacks (snd (submit_feedback title category description priority
                      (Some u) now db))
    = (feedbacks db
       ++ [mkFeedback (next_id (map f_id (feedbacks db))) title description
             category priority Status.NEW (Some now) None (u_id u)])%list.
Proof. reflexivity. Qed.

(** ** closed_at and the status *)

(** C3.  The seeding draws the status of each row from all four values and
    never sets [closed_at]: the first row of the seeded store has status
    closed and no [closed_at], although [update_status] sets it whenever it
    writes that status.  The state is the one the startup leaves from an
    empty store. *)
Theorem seeded_closed_row_without_closed_at :
  startup_event demo_hashpw demo_entropy empty_db = inr seeded_db /\
  option_map (fun f => (status f, closed_at f)) (query_feedback 1 seeded_db)
  = Some (Status.CLOSED, None).
Proof. vm_compute. split; reflexivity. Qed.

(** ** Responses and the rows they refer to *)

(** C6.  [add_response] inserts without looking the feedback up: the
    support user posts a response to id 999, which no row of the seeded
    store has, and the table of responses gains a row with that
    [feedback_id].  [update_status] and [feedback_detail] do look it up. *)
Theorem add_response_dangling_feedback_id :
  let req := mkRequest (POST_feedback_id_response 999 "hello") support_session T0 in
  let o := handle demo_checkpw req seeded_db in
  query_feedback 999 seeded_db = None /\
  query_feedback 999 (db_after o) = None /\
  response o = RedirectResponse "/feedback/999" 302 /\
  responses (db_after o)
  = (responses seeded_db ++ [mkResponse 6 "hello" (Some T0) 999 2])%list.
Proof. vm_compute. repeat split; reflexivity. Qed.

(** ** The average resolution time *)

(** One closed row, closed an hour after its creation: 1.0. *)
Example avg_one_closed_row : forall id t d c p u (T : datetime),
  avg_resolution_hours
    [mkFeedback id t d c p Status.CLOSED (Some T) (Some (T + 3600 * 1000000)) u]
  = 1%Q.
Proof.
  intros. unfold avg_resolution_hours, filter_status. simpl.
  unfold resolution_seconds. simpl.
  replace (T + 3600000000 - T) with 3600000000 by lia.
  reflexivity.
Qed.

(** No closed row: 0. *)
Lemma avg_no_closed_row : forall fbs,
  filter_status Status.CLOSED fbs = [] -> avg_resolution_hours fbs = 0%Q.
Proof. intros fbs H. unfold avg_resolution_hours. now rewrite H. Qed.

(** C4.  The sum is taken over the closed rows that have both timestamps,
    and divided by the number of all closed rows.  After the seeding, the
    customer submits a feedback at [T0] and the support user closes it an
    hour later; the seeded row 1 is closed without [closed_at].  The
    dashboard shows 0.5, the mean over the rows with both timestamps
    is 1.0. *)
Theorem dashboard_avg_counts_rows_without_closed_at :
  let db := run demo_checkpw
              [mkRequest (POST_feedback_new "t" "bug" "d" "low")
                 customer_session T0;
               mkRequest (POST_feedback_id_status 11 "closed")
                 support_session T0_plus_3600s]
              seeded_db in
  map (fun f => (f_id f, created_at f, closed_at f))
      (filter_status Status.CLOSED (feedbacks db))
  = [(1, Some 1699827200000000, None); (11, Some T0, Some T0_plus_3600s)] /\
  shown_avg (response (handle demo_checkpw
                         (mkRequest GET_dashboard admin_session T0_plus_3600s) db))
  = Some (1 # 2)%Q /\
  spec_avgResolutionHours (feedbacks db) = 1%Q.
Proof. vm_compute. repeat split; reflexivity. Qed.

(** ** Requests without a user *)

(** C5, counterexample.  Without a session, the two POST routes under
    /feedback/{id} answer with a redirect to the detail view of that id, not
    to the login view. *)
Lemma unauthenticated_posts_not_sent_to_login :
  get_current_user None seeded_db = None /\
  response (handle demo_checkpw
              (mkRequest (POST_feedback_id_response 1 "hello") None T0) seeded_db)
  = RedirectResponse "/feedback/1" 307 /\
  response (handle demo_checkpw
              (mkRequest (POST_feedback_id_status 1 "closed") None T0) seeded_db)
  = RedirectResponse "/feedback/1" 307 /\
  redirects_to_login (RedirectResponse "/feedback/1" 307) = false.
Proof. vm_compute. repeat split; reflexivity. Qed.

(** C5, amended.  When the session resolves to no user, the store is left
    as it was, and: the handlers of GET /, GET /logout, GET and POST
    /feedback/new, GET /feedback, GET /feedback/{id} and GET /dashboard
    answer with a redirect to /login; POST /feedback/{id}/response and POST
    /feedback/{id}/status answer with a redirect to /feedback/{id}; GET
    /login renders the login view. *)
Theorem unauthenticated_requests :
  forall checkpw req db,
    get_current_user (session req) db = None ->
    db_after (handle checkpw req db) = db /\
    match route req with
    | GET_index | GET_logout | GET_feedback_new | POST_feedback_new _ _ _ _
    | GET_feedback _ _ | GET_feedback_id _ | GET_dashboard =>
        response (handle checkpw req db) = RedirectResponse "/login" 307
    | POST_feedback_id_response feedback_id _
    | POST_feedback_id_status feedback_id _ =>
        response (handle checkpw req db)
        = RedirectResponse (detail_url feedback_id) 307
    | GET_login =>
        response (handle checkpw req db)
        = TemplateResponse "login.html" (LoginCtx None)
    | POST_login _ _ | GET_health => True
    end.
Proof.
  intros checkpw [r s t] db H. simpl in H.
  unfold handle. simpl. rewrite H.
  destruct r; simpl; split; reflexivity.
Qed.

Lemma unauthenticated_requests_witness :
  get_current_user None seeded_db = None /\
  db_after (handle demo_checkpw
              (mkRequest (POST_feedback_id_status 1 "closed") None T0) seeded_db)
  = seeded_db /\
  response (handle demo_checkpw
              (mkRequest (POST_feedback_id_status 1 "closed") None T0) seeded_db)
  = RedirectResponse (detail_url 1) 307.
Proof.
  split; [reflexivity |].
  apply (unauthenticated_requests demo_checkpw
           (mkRequest (POST_feedback_id_status 1 "closed") None T0) seeded_db).
  reflexivity.
Defined.

(** ** The effect of a status update on the store *)

Lemma write_status_id : forall value now f,
  f_id (write_status value now f) = f_id f.
Proof.
  intros. unfold write_status. destruct (String.eqb value Status.CLOSED); reflexivity.
Qed.

Lemma write_status_same : forall value now f,
  same_but_status f (write_status value now f).
Proof.
  intros. unfold write_status, same_but_status.
  destruct (String.eqb value Status.CLOSED); simpl; repeat split; reflexivity.
Qed.

Lemma find_update_first_same : forall id g l fb,
  find (fun f => f_id f =? id) l = Some fb ->
  (forall f, f_id (g f) = f_id f) ->
  find (fun f => f_id f =? id) (update_first (fun f => f_id f =? id) g l)
  = Some (g fb).
Proof.
  intros id g l fb Hfind Hid. induction l as [| f t IH]; simpl in *.
  - discriminate.
  - destruct (f_id f =? id) eqn:E.
    + inversion Hfind; subst. simpl. rewrite Hid, E. reflexivity.
    + simpl. rewrite E. auto.
Qed.

Lemma find_update_first_other : forall id other g l,
  other <> id ->
  (forall f, f_id (g f) = f_id f) ->
  find (fun f => f_id f =? other) (update_first (fun f => f_id f =? id) g l)
  = find (fun f => f_id f =? other) l.
Proof.
  intros id other g l Hne Hid. induction l as [| f t IH]; simpl.
  - reflexivity.
  - destruct (f_id f =? id) eqn:E; simpl.
    + rewrite Hid. apply Z.eqb_eq in E.
      destruct (f_id f =? other) eqn:E'; [| reflexivity].
      apply Z.eqb_eq in E'. congruence.
    + destruct (f_id f =? other); auto.
Qed.

Lemma update_first_ids : forall p g l,
  (forall f, f_id (g f) = f_id f) ->
  map f_id (update_first p g l) = map f_id l.
Proof.
  intros p g l Hid. induction l as [| f t IH]; simpl.
  - reflexivity.
  - destruct (p f); simpl; [rewrite Hid | rewrite IH]; reflexivity.
Qed.

(** The store a status update by staff leaves. *)
Lemma update_status_staff_db : forall feedback_id value u now db,
  str_in (role u) [UserRole.SUPPORT; UserRole.ADMIN] = true ->
  snd (update_status feedback_id value (Some u) now db)
  = match query_feedback feedback_id db with
    | Some _ =>
        mkDB (users db)
             (update_first (fun f => f_id f =? feedback_id)
                (write_status value now) (feedbacks db))
             (responses db)
    | None => db
    end.
Proof.
  intros. unfold update_status. rewrite H. reflexivity.
Qed.

Lemma update_status_effect : forall feedback_id value u now db fb,
  str_in (role u) [UserRole.SUPPORT; UserRole.ADMIN] = true ->
  query_feedback feedback_id db = Some fb ->
  query_feedback feedback_id
    (snd (update_status feedback_id value (Some u) now db))
  = Some (write_status value now fb).
Proof.
  intros feedback_id value u now db fb Hrole Hq.
  rewrite update_status_staff_db by assumption. rewrite Hq.
  unfold query_feedback in *. simpl.
  apply find_update_first_same; [assumption | apply write_status_id].
Qed.

(** C7.  A status update by a support or admin user on an existing row
    writes the submitted value to [status]; it sets [closed_at] to the
    current time when the value is closed and leaves it as it was
    otherwise; every other field of the row, every other row, the users
    and the responses are unchanged.  After the updates new, in-review,
    closed, in-review the row still has the [closed_at] of the third. *)
Theorem update_status_frame :
  forall feedback_id value u now db fb,
    str_in (role u) [UserRole.SUPPORT; UserRole.ADMIN] = true ->
    query_feedback feedback_id db = Some fb ->
    (exists fb',
       query_feedback feedback_id
         (snd (update_status feedback_id value (Some u) now db)) = Some fb' /\
       status fb' = value /\
       (value = Status.CLOSED -> closed_at fb' = Some now) /\
       (value <> Status.CLOSED -> closed_at fb' = closed_at fb) /\
       same_but_status fb fb') /\
    (forall other, other <> feedback_id ->
       query_feedback other
         (snd (update_status feedback_id value (Some u) now db))
       = query_feedback other db) /\
    map f_id (feedbacks (snd (update_status feedback_id value (Some u) now db)))
    = map f_id (feedbacks db) /\
    users (snd (update_status feedback_id value (Some u) now db)) = users db /\
    responses (snd (update_status feedback_id value (Some u) now db))
    = responses db /\
    (forall t1 t2 t3 t4,
       let step := fun v t d => snd (update_status feedback_id v (Some u) t d) in
       option_map (fun f => (status f, closed_at f))
         (query_feedback feedback_id
            (step Status.IN_REVIEW t4
               (step Status.CLOSED t3
                  (step Status.IN_REVIEW t2 (step Status.NEW t1 db)))))
       = Some (Status.IN_REVIEW, Some t3)).
Proof.
  intros feedback_id value u now db fb Hrole Hq.
  split; [| split; [| split; [| split; [| split]]]].
  - exists (write_status value now fb). split.
    + now apply update_status_effect.
    + unfold write_status. split; [| split; [| split]].
      * destruct (String.eqb value Status.CLOSED); reflexivity.
      * intros ->. reflexivity.
      * intros Hne. apply String.eqb_neq in Hne. rewrite Hne. reflexivity.
      * apply (write_status_same value now fb).
  - intros other Hne. rewrite update_status_staff_db by assumption.
    rewrite Hq. unfold query_feedback. simpl.
    apply find_update_first_other; [assumption | apply write_status_id].
  - rewrite update_status_staff_db by assumption. rewrite Hq. simpl.
    apply update_first_ids, write_status_id.
  - rewrite update_status_staff_db by assumption. now rewrite Hq.
  - rewrite update_status_staff_db by assumption. now rewrite Hq.
  - intros t1 t2 t3 t4 step. unfold step.
    rewrite (update_status_effect feedback_id Status.IN_REVIEW u t4 _
               (write_status Status.CLOSED t3
                  (write_status Status.IN_REVIEW t2
                     (write_status Status.NEW t1 fb)))); [reflexivity | assumption |].
    repeat (apply update_status_effect; [assumption |]). assumption.
Qed.

Lemma update_status_frame_witness :
  str_in (role (mkUser 2 "support" "salt$password" "support"))
         [UserRole.SUPPORT; UserRole.ADMIN] = true /\
  query_feedback 6 seeded_db
  = Some (mkFeedback 6 "Suggestion for UI" "Move button to left." "feature"
            "high" "new" (Some 1699740800000005) None 1) /\
  users (snd (update_status 6 "closed"
                (Some (mkUser 2 "support" "salt$password" "support"))
                T0 seeded_db))
  = users seeded_db.
Proof.
  split; [reflexivity | split; [reflexivity |]].
  apply (update_status_frame 6 "closed"
           (mkUser 2 "support" "salt$password" "support") T0 seeded_db
           (mkFeedback 6 "Suggestion for UI" "Move button to left." "feature"
              "high" "new" (Some 1699740800000005) None 1));
    reflexivity.
Defined.

(** ** The list of feedback *)

Lemma created_ge_total : forall a b,
  created_ge a b = false -> created_ge b a = true.
Proof.
  intros a b. unfold created_ge.
  destruct (created_at a), (created_at b); try reflexivity; try discriminate.
  intros H. apply Z.leb_gt in H. apply Z.leb_le. lia.
Qed.

Lemma newest_first_trans : forall a b c,
  newest_first a b -> newest_first b c -> newest_first a c.
Proof.
  unfold newest_first, created_ge. intros a b c.
  destruct (created_at a), (created_at b), (created_at c);
    try reflexivity; try discriminate.
  intros H1 H2. apply Z.leb_le in H1, H2. apply Z.leb_le. lia.
Qed.

Lemma insert_desc_perm : forall f l, Permutation (f :: l) (insert_desc f l).
Proof.
  intros f l. induction l as [| g t IH]; simpl.
  - apply Permutation_refl.
  - destruct (created_ge f g).
    + apply Permutation_refl.
    + eapply perm_trans; [apply perm_swap |]. now apply perm_skip.
Qed.

Lemma order_by_perm : forall l, Permutation l (order_by_created_at_desc l).
Proof.
  induction l as [| f t IH]; simpl.
  - apply perm_nil.
  - eapply perm_trans; [apply perm_skip, IH | apply insert_desc_perm].
Qed.

Lemma insert_desc_sorted : forall f l,
  Sorted newest_first l -> Sorted newest_first (insert_desc f l).
Proof.
  intros f l Hs. induction Hs as [| g t Hs IH Hhd]; simpl.
  - repeat constructor.
  - destruct (created_ge f g) eqn:E.
    + constructor; [now constructor | now constructor].
    + constructor; [assumption |].
      apply created_ge_total in E.
      destruct t as [| h t']; simpl.
      * now constructor.
      * destruct (created_ge f h); constructor; [assumption |].
        now inversion Hhd.
Qed.

Lemma order_by_sorted : forall l,
  StronglySorted newest_first (order_by_created_at_desc l).
Proof.
  intros l. apply Sorted_StronglySorted.
  - intros a b c. apply newest_first_trans.
  - induction l as [| f t IH]; simpl.
    + constructor.
    + now apply insert_desc_sorted.
Qed.

Lemma filter_filter : forall (p q : Feedback -> bool) l,
  filter q (filter p l) = filter (fun f => p f && q f) l.
Proof.
  intros p q l. induction l as [| f t IH]; simpl.
  - reflexivity.
  - destruct (p f); simpl; [destruct (q f) |]; now rewrite IH.
Qed.

Lemma filter_true : forall (p : Feedback -> bool) l,
  (forall f, p f = true) -> filter p l = l.
Proof.
  intros p l H. induction l as [| f t IH]; simpl.
  - reflexivity.
  - now rewrite H, IH.
Qed.

(** The rows [feedback_list] selects, before they are ordered. *)
Lemma feedback_list_rows : forall category_param status_filter u db,
  feedback_list category_param status_filter (Some u) db
  = TemplateResponse "feedback_list.html"
      (ListCtx u
         (order_by_created_at_desc
            (filter (fun f => passes category_param (category f)
                              && passes status_filter (status f))
                    (feedbacks db)))
         Category.members Status.members category_param status_filter).
Proof.
  intros c s u db. unfold feedback_list.
  do 3 f_equal.
  rewrite <- filter_filter.
  assert (Hc : match c with
               | Some x =>
                   if truthy_str c && negb (String.eqb x "all")
                   then filter_category x (feedbacks db)
                   else feedbacks db
               | None => feedbacks db
               end
               = filter (fun f => passes c (category f)) (feedbacks db)).
  { destruct c as [x |]; simpl.
    - destruct (String.eqb x ""); simpl.
      + symmetry. now apply filter_true.
      + destruct (String.eqb x "all"); simpl.
        * symmetry. now apply filter_true.
        * reflexivity.
    - symmetry. now apply filter_true. }
  rewrite Hc.
  destruct s as [x |]; simpl.
  - destruct (String.eqb x ""); simpl.
    + symmetry. now apply filter_true.
    + destruct (String.eqb x "all"); simpl.
      * symmetry. now apply filter_true.
      * reflexivity.
  - symmetry. now apply filter_true.
Qed.

(** C8, counterexample.  With [category] present and empty, the handler
    filters nothing and lists the ten seeded rows; no row has the empty
    string as its category, so a parameter that is present and not equal
    to all is not matched by the rows returned. *)
Lemma empty_category_is_no_filter :
  let r := feedback_list (Some "") None
             (get_current_user admin_session seeded_db) seeded_db in
  listed r = order_by_created_at_desc (feedbacks seeded_db) /\
  List.length (listed r) = 10%nat /\
  filter (fun f => spec_passes (Some "") (category f)
                   && spec_passes None (status f)) (feedbacks seeded_db) = [] /\
  ~ Permutation (listed r)
      (filter (fun f => spec_passes (Some "") (category f)
                        && spec_passes None (status f)) (feedbacks seeded_db)).
Proof.
  split; [reflexivity | split; [reflexivity | split; [reflexivity |]]].
  intros H. apply Permutation_length in H. vm_compute in H. discriminate.
Qed.

(** C8, amended.  For every authenticated user and every combination of
    the optional parameters, GET /feedback returns exactly the rows that
    match each parameter that is present, not empty and not equal to all (a
    parameter that is absent, empty or equal to all imposes no filter),
    ordered by [created_at] descending; with category bug and status_filter
    all these are exactly the rows of category bug. *)
Theorem feedback_list_filters_and_orders :
  (forall category_param status_filter u db,
     exists l,
       feedback_list category_param status_filter (Some u) db
       = TemplateResponse "feedback_list.html"
           (ListCtx u l Category.members Status.members
              category_param status_filter) /\
       Permutation l
         (filter (fun f => passes category_param (category f)
                           && passes status_filter (status f))
                 (feedbacks db)) /\
       StronglySorted newest_first l) /\
  (forall u db,
     exists l,
       feedback_list (Some "bug") (Some "all") (Some u) db
       = TemplateResponse "feedback_list.html"
           (ListCtx u l Category.members Status.members
              (Some "bug") (Some "all")) /\
       Permutation l
         (filter (fun f => String.eqb (category f) "bug") (feedbacks db)) /\
       StronglySorted newest_first l).
Proof.
  split.
  - intros c s u db.
    eexists. split; [apply feedback_list_rows |].
    split; [apply Permutation_sym, order_by_perm | apply order_by_sorted].
  - intros u db.
    eexists. split; [apply feedback_list_rows |].
    split; [| apply order_by_sorted].
    eapply perm_trans; [apply Permutation_sym, order_by_perm |].
    erewrite filter_ext; [apply Permutation_refl |].
    intros f. simpl. apply andb_true_r.
Qed.

(** ** What the handlers do to the store *)

Lemma same_but_status_refl : forall f, same_but_status f f.
Proof. intros f. unfold same_but_status. repeat split; reflexivity. Qed.

Lemma same_but_status_trans : forall f g h,
  same_but_status f g -> same_but_status g h -> same_but_status f h.
Proof.
  unfold same_but_status. intros f g h Hfg Hgh.
  destruct Hfg as (? & ? & ? & ? & ? & ? & ?).
  destruct Hgh as (? & ? & ? & ? & ? & ? & ?).
  repeat split; congruence.
Qed.

Lemma Forall2_same_refl : forall l, Forall2 same_but_status l l.
Proof.
  induction l; constructor; [apply same_but_status_refl | assumption].
Qed.

Lemma Forall2_same_trans : forall l1 l2 l3,
  Forall2 same_but_status l1 l2 -> Forall2 same_but_status l2 l3 ->
  Forall2 same_but_status l1 l3.
Proof.
  intros l1 l2 l3 H12. revert l3.
  induction H12 as [| f g t1 t2 Hfg _ IH]; intros l3 H23.
  - inversion H23. constructor.
  - inversion H23; subst. constructor.
    + eapply same_but_status_trans; eassumption.
    + now apply IH.
Qed.

Lemma update_first_same : forall p value now l,
  Forall2 same_but_status l (update_first p (write_status value now) l).
Proof.
  intros p value now l. induction l as [| f t IH]; simpl.
  - constructor.
  - destruct (p f); constructor.
    + apply write_status_same.
    + apply Forall2_same_refl.
    + apply same_but_status_refl.
    + assumption.
Qed.

Lemma grows_refl : forall db, grows db db.
Proof.
  intros db. split; [reflexivity | split].
  - exists []. now rewrite app_nil_r.
  - exists (feedbacks db), []. split.
    + now rewrite app_nil_r.
    + apply Forall2_same_refl.
Qed.

Lemma grows_trans : forall db1 db2 db3,
  grows db1 db2 -> grows db2 db3 -> grows db1 db3.
Proof.
  intros db1 db2 db3 (Hu & (r & Hr) & (k & n & Hf & Hk))
                     (Hu' & (r' & Hr') & (k' & n' & Hf' & Hk')).
  split; [congruence | split].
  - exists (r ++ r')%list. rewrite Hr', Hr. now rewrite app_assoc.
  - rewrite Hf in Hk'.
    apply Forall2_app_inv_l in Hk'.
    destruct Hk' as (k1 & k2 & Hk1 & Hk2 & ->).
    exists k1, (k2 ++ n')%list. split.
    + rewrite Hf'. now rewrite app_assoc.
    + eapply Forall2_same_trans; eassumption.
Qed.

(** One request: what each route may do to the store. *)
Lemma handle_effect : forall checkpw req db,
  match route req with
  | POST_feedback_new t c d p =>
      users (db_after (handle checkpw req db)) = users db /\
      responses (db_after (handle checkpw req db)) = responses db /\
      (feedbacks (db_after (handle checkpw req db)) = feedbacks db \/
       exists u,
         feedbacks (db_after (handle checkpw req db))
         = (feedbacks db
            ++ [mkFeedback (next_id (map f_id (feedbacks db))) t d c p
                  Status.NEW (Some (now req)) None u])%list)
  | POST_feedback_id_response id c =>
      users (db_after (handle checkpw req db)) = users db /\
      feedbacks (db_after (handle checkpw req db)) = feedbacks db /\
      (responses (db_after (handle checkpw req db)) = responses db \/
       exists u,
         responses (db_after (handle checkpw req db))
         = (responses db
            ++ [mkResponse (next_id (map r_id (responses db))) c
                  (Some (now req)) id u])%list)
  | POST_feedback_id_status id v =>
      users (db_after (handle checkpw req db)) = users db /\
      responses (db_after (handle checkpw req db)) = responses db /\
      map f_id (feedbacks (db_after (handle checkpw req db)))
      = map f_id (feedbacks db) /\
      Forall2 same_but_status (feedbacks db)
        (feedbacks (db_after (handle checkpw req db)))
  | _ => db_after (handle checkpw req db) = db
  end.
Proof.
  intros checkpw [r s t] db. unfold handle. simpl.
  destruct r as [ | | | un pw | | | ti c d p | c sf | fid | fid c | fid v | ];
    simpl; try reflexivity.
  - (* POST /feedback/new *)
    unfold submit_feedback.
    destruct (get_current_user s db) as [u |]; simpl;
      (split; [reflexivity | split; [reflexivity |]]).
    + right. exists (u_id u). reflexivity.
    + now left.
  - (* POST /feedback/{id}/response *)
    unfold add_response.
    destruct (get_current_user s db) as [u |];
      [destruct (str_in (role u) [UserRole.SUPPORT; UserRole.ADMIN]) |];
      simpl; (split; [reflexivity | split; [reflexivity |]]).
    + right. exists (u_id u). reflexivity.
    + now left.
    + now left.
  - (* POST /feedback/{id}/status *)
    unfold update_status.
    destruct (get_current_user s db) as [u |];
      [destruct (str_in (role u) [UserRole.SUPPORT; UserRole.ADMIN]);
       [destruct (query_feedback fid db) |] |];
      simpl; (split; [reflexivity | split; [reflexivity | split]]);
      try reflexivity; try apply Forall2_same_refl.
    + apply update_first_ids, write_status_id.
    + apply update_first_same.
Qed.

Lemma handle_grows : forall checkpw req db,
  grows db (db_after (handle checkpw req db)).
Proof.
  intros checkpw req db.
  pose proof (handle_effect checkpw req db) as H.
  destruct (route req).
  1-6, 8-9, 12: rewrite H; apply grows_refl.
  - destruct H as (Hu & Hr & [Hf | [u Hf]]); split; try assumption; split.
    + exists []. now rewrite app_nil_r.
    + exists (feedbacks db), []. rewrite app_nil_r.
      split; [assumption | apply Forall2_same_refl].
    + exists []. now rewrite app_nil_r.
    + eexists (feedbacks db), _. split; [eassumption | apply Forall2_same_refl].
  - destruct H as (Hu & Hf & [Hr | [u Hr]]); split; try assumption; split.
    + exists []. now rewrite app_nil_r.
    + exists (feedbacks db), []. rewrite app_nil_r.
      split; [assumption | apply Forall2_same_refl].
    + eexists. eassumption.
    + exists (feedbacks db), []. rewrite app_nil_r.
      split; [assumption | apply Forall2_same_refl].
  - destruct H as (Hu & Hr & _ & Hf); split; try assumption; split.
    + exists []. now rewrite app_nil_r.
    + eexists _, []. rewrite app_nil_r. split; [reflexivity | assumption].
Qed.

Lemma run_grows : forall checkpw reqs db, grows db (run checkpw reqs db).
Proof.
  intros checkpw reqs. unfold run.
  induction reqs as [| req rest IH]; intros db; simpl.
  - apply grows_refl.
  - eapply grows_trans; [apply handle_grows | apply IH].
Qed.

Lemma grows_lengths : forall db db',
  grows db db' ->
  List.length (users db') = List.length (users db) /\
  (List.length (feedbacks db) <= List.length (feedbacks db'))%nat /\
  (List.length (responses db) <= List.length (responses db'))%nat.
Proof.
  intros db db' (Hu & (r & Hr) & (k & n & Hf & Hk)).
  rewrite Hu, Hr, Hf. rewrite !length_app.
  apply Forall2_length in Hk. rewrite Hk.
  split; [reflexivity | split; lia].
Qed.

(** C10.  No route deletes a row.  A request leaves the store as it was,
    except that POST /feedback/new may append one feedback row, POST
    /feedback/{id}/response may append one response row, and POST
    /feedback/{id}/status may rewrite [status] and [closed_at] of rows that
    stay in place.  Over every sequence of requests the users stay the
    same, every feedback row stays (the same but for [status] and
    [closed_at]) and every response row stays, so that no table
    shrinks. *)
Theorem handlers_never_delete :
  (forall checkpw req db,
     match route req with
     | POST_feedback_new t c d p =>
         users (db_after (handle checkpw req db)) = users db /\
         responses (db_after (handle checkpw req db)) = responses db /\
         (feedbacks (db_after (handle checkpw req db)) = feedbacks db \/
          exists u,
            feedbacks (db_after (handle checkpw req db))
            = (feedbacks db
               ++ [mkFeedback (next_id (map f_id (feedbacks db))) t d c p
                     Status.NEW (Some (now req)) None u])%list)
     | POST_feedback_id_response id c =>
         users (db_after (handle checkpw req db)) = users db /\
         feedbacks (db_after (handle checkpw req db)) = feedbacks db /\
         (responses (db_after (handle checkpw req db)) = responses db \/
          exists u,
            responses (db_after (handle checkpw req db))
            = (responses db
               ++ [mkResponse (next_id (map r_id (responses db))) c
                     (Some (now req)) id u])%list)
     | POST_feedback_id_status id v =>
         users (db_after (handle checkpw req db)) = users db /\
         responses (db_after (handle checkpw req db)) = responses db /\
         map f_id (feedbacks (db_after (handle checkpw req db)))
         = map f_id (feedbacks db) /\
         Forall2 same_but_status (feedbacks db)
           (feedbacks (db_after (handle checkpw req db)))
     | _ => db_after (handle checkpw req db) = db
     end) /\
  (forall checkpw reqs db,
     grows db (run checkpw reqs db) /\
     List.length (users (run checkpw reqs db)) = List.length (users db) /\
     (List.length (feedbacks db)
      <= List.length (feedbacks (run checkpw reqs db)))%nat /\
     (List.length (responses db)
      <= List.length (responses (run checkpw reqs db)))%nat).
Proof.
  split.
  - apply handle_effect.
  - intros checkpw reqs db. split.
    + apply run_grows.
    + apply grows_lengths, run_grows.
Qed.

(** ** The seeding *)

Lemma insert_all_app : forall (A : Type) (key : A -> Z) rows table,
  exists new,
    insert_all key rows table = (table ++ new)%list /\
    Forall2 (fun mk r => exists id, r = mk id) rows new.
Proof.
  intros A key rows. unfold insert_all.
  induction rows as [| mk rest IH]; intros table; simpl.
  - exists []. split; [now rewrite app_nil_r | constructor].
  - destruct (IH (insert key mk table)) as (new & Heq & Hall).
    exists (mk (next_id (map key table)) :: new). split.
    + rewrite Heq. unfold insert. now rewrite <- app_assoc.
    + constructor; [now eexists | assumption].
Qed.

Lemma choice_ok : forall (A : Type) e k (l : list A),
  l <> [] -> exists x, choice e k l = inr x.
Proof.
  intros A e k l Hne. unfold choice.
  destruct (nth_error l (random e k mod List.length l)) as [x |] eqn:E.
  - now exists x.
  - apply nth_error_None in E.
    assert (List.length l <> 0%nat) by (destruct l; [congruence | discriminate]).
    pose proof (Nat.mod_upper_bound (random e k) (List.length l) H). lia.
Qed.

Lemma seed_feedback_ok : forall e customer_id i,
  (i < 10)%nat ->
  exists mk,
    seed_feedback e customer_id i = inr mk /\
    forall id, f_user_id (mk id) = customer_id.
Proof.
  intros e customer_id i Hi. unfold seed_feedback.
  destruct (nth_error titles i) as [t |] eqn:Et;
    [| apply nth_error_None in Et; simpl in Et; lia].
  destruct (nth_error descriptions i) as [d |] eqn:Ed;
    [| apply nth_error_None in Ed; simpl in Ed; lia].
  destruct (choice_ok _ e (4 * i) Category.members) as [c ->]; [discriminate |].
  destruct (choice_ok _ e (4 * i + 1) Priority.members) as [p ->]; [discriminate |].
  destruct (choice_ok _ e (4 * i + 2) Status.members) as [s ->]; [discriminate |].
  simpl. eexists. split; [reflexivity | reflexivity].
Qed.

Lemma seed_feedbacks_ok : forall e customer_id range,
  Forall (fun i => (i < 10)%nat) range ->
  exists fbs,
    seed_feedbacks e customer_id range = inr fbs /\
    List.length fbs = List.length range /\
    Forall (fun mk => forall id, f_user_id (mk id) = customer_id) fbs.
Proof.
  intros e customer_id range H.
  induction H as [| i rest Hi _ IH]; simpl.
  - exists []. repeat split. constructor.
  - destruct (seed_feedback_ok e customer_id i Hi) as (mk & -> & Hmk).
    destruct IH as (fbs & -> & Hlen & Hall). simpl.
    exists (mk :: fbs). repeat split.
    + simpl. now rewrite Hlen.
    + now constructor.
Qed.

Lemma update_nth_owner : forall j s l,
  map f_user_id (update_nth j (set_status s) l) = map f_user_id l.
Proof.
  intros j s l. revert j.
  induction l as [| f t IH]; intros [| j]; simpl; try reflexivity.
  now rewrite IH.
Qed.

Lemma seed_responses_ok : forall e support_id range rs fbs,
  fbs <> [] ->
  exists new fbs',
    seed_responses e support_id range rs fbs = inr ((rs ++ new)%list, fbs') /\
    List.length new = List.length range /\
    map f_user_id fbs' = map f_user_id fbs.
Proof.
  intros e support_id range.
  induction range as [| i rest IH]; intros rs fbs Hne; cbn [seed_responses].
  - exists [], fbs. rewrite app_nil_r. repeat split.
  - destruct (choice_ok _ e (40 + i)%nat fbs Hne) as [fb ->]. cbn [bind].
    set (fbs1 := if String.eqb (status fb) Status.NEW
                 then update_nth (random e (40 + i) mod List.length fbs)
                        (set_status Status.IN_REVIEW) fbs
                 else fbs).
    assert (Hown : map f_user_id fbs1 = map f_user_id fbs).
    { unfold fbs1. destruct (String.eqb (status fb) Status.NEW);
        [apply update_nth_owner | reflexivity]. }
    assert (Hne1 : fbs1 <> []).
    { intros E. rewrite E in Hown. destruct fbs; [congruence | discriminate]. }
    match goal with
    | |- context [seed_responses e support_id rest (rs ++ [?r])%list fbs1] =>
        destruct (IH (rs ++ [r])%list fbs1 Hne1) as (new & fbs' & -> & Hlen & Hown');
        exists (r :: new), fbs'
    end.
    repeat split.
    + now rewrite <- app_assoc.
    + simpl. now rewrite Hlen.
    + congruence.
Qed.

Lemma owners_of_map : forall (cid : Z) l l',
  map f_user_id l' = map f_user_id l ->
  Forall (fun f => f_user_id f = cid) l ->
  Forall (fun f => f_user_id f = cid) l'.
Proof.
  intros cid l l' Hmap H.
  apply (Forall_map f_user_id (fun x => x = cid)).
  rewrite Hmap. now apply Forall_map.
Qed.

Lemma inserted_owners : forall (cid : Z) rows new,
  Forall (fun mk : Z -> Feedback => forall id, f_user_id (mk id) = cid) rows ->
  Forall2 (fun mk r => exists id, r = mk id) rows new ->
  Forall (fun f => f_user_id f = cid) new.
Proof.
  intros cid rows new Hrows H.
  induction H as [| mk r rows' new' (id & ->) _ IH].
  - constructor.
  - inversion Hrows; subst. constructor; [apply H1 | now apply IH].
Qed.

Lemma seeded_users : forall hashpw e,
  insert_all u_id (seed_users hashpw e) []
  = [mkUser 1 "customer" (hashpw "password" (gensalt e 0)) UserRole.CUSTOMER;
     mkUser 2 "support" (hashpw "password" (gensalt e 1)) UserRole.SUPPORT;
     mkUser 3 "admin" (hashpw "password" (gensalt e 2)) UserRole.ADMIN].
Proof. reflexivity. Qed.

Lemma next_with_role_first : forall r u rest,
  String.eqb (role u) r = true -> next_with_role r (u :: rest) = inr u.
Proof. intros r u rest H. unfold next_with_role. simpl. now rewrite H. Qed.

Lemma next_with_role_second : forall r u v rest,
  String.eqb (role u) r = false -> String.eqb (role v) r = true ->
  next_with_role r (u :: v :: rest) = inr v.
Proof.
  intros r u v rest Hu Hv. unfold next_with_role. simpl. now rewrite Hu, Hv.
Qed.

(** The seeding of a store without users. *)
Lemma startup_event_seeds : forall hashpw e db,
  users db = [] ->
  exists new_feedbacks new_responses,
    startup_event hashpw e db
    = inr (mkDB
             [mkUser 1 "customer" (hashpw "password" (gensalt e 0)) UserRole.CUSTOMER;
              mkUser 2 "support" (hashpw "password" (gensalt e 1)) UserRole.SUPPORT;
              mkUser 3 "admin" (hashpw "password" (gensalt e 2)) UserRole.ADMIN]
             (feedbacks db ++ new_feedbacks)
             (responses db ++ new_responses)) /\
    List.length new_feedbacks = 10%nat /\
    Forall (fun f => f_user_id f = 1) new_feedbacks /\
    List.length new_responses = 5%nat.
Proof.
  intros hashpw e db Hu. unfold startup_event. rewrite Hu.
  rewrite seeded_users.
  rewrite next_with_role_first by reflexivity.
  rewrite next_with_role_second by reflexivity.
  cbn [bind u_id].
  destruct (seed_feedbacks_ok e 1 (seq 0 10)) as (fbs & Hfbs & Hlen & Hown).
  { repeat constructor. }
  rewrite Hfbs. cbn [bind].
  destruct (insert_all_app _ f_id fbs (feedbacks db)) as (new & Htable & Hnew).
  rewrite Htable.
  rewrite skipn_app, skipn_all, Nat.sub_diag, firstn_app, firstn_all, Nat.sub_diag.
  cbn [skipn firstn app]. rewrite app_nil_r.
  assert (Hnewlen : List.length new = 10%nat).
  { apply Forall2_length in Hnew. rewrite <- Hnew, Hlen. reflexivity. }
  assert (Hne : new <> []) by (intros E; rewrite E in Hnewlen; discriminate).
  destruct (seed_responses_ok e 2 (seq 0 5) [] new Hne)
    as (rs & fbs' & Hrs & Hrslen & Hown').
  rewrite Hrs. cbn [bind app].
  destruct (insert_all_app _ r_id rs (responses db)) as (newr & Hr & Hnewr).
  rewrite Hr.
  exists fbs', newr. split; [reflexivity |].
  assert (Hlen' : List.length fbs' = 10%nat).
  { rewrite <- Hnewlen, <- (length_map f_user_id fbs'), Hown'. apply length_map. }
  split; [assumption | split].
  - eapply owners_of_map; [exact Hown' |].
    eapply inserted_owners; eassumption.
  - apply Forall2_length in Hnewr. rewrite <- Hnewr, Hrslen. reflexivity.
Qed.

Lemma startup_event_skips : forall hashpw e db,
  users db <> [] -> startup_event hashpw e db = inr db.
Proof.
  intros hashpw e db H. unfold startup_event.
  destruct (users db); [congruence | reflexivity].
Qed.

Lemma startup_events_skip : forall hashpw es db,
  users db <> [] -> startup_events hashpw es db = inr db.
Proof.
  intros hashpw es db H. induction es as [| e rest IH]; simpl.
  - reflexivity.
  - rewrite startup_event_skips by assumption. exact IH.
Qed.

(** C9.  The seeding changes nothing when the table of users has a row.
    On a store without users it succeeds and inserts exactly three users,
    one per role, ten feedback rows, all owned by the customer user, and
    five response rows.  Started any number of times from the empty store,
    it leaves the store of the first run: 3 users, 10 feedback rows and 5
    responses, and the dashboard shows the admin a total of 10. *)
Theorem startup_event_idempotent :
  forall hashpw,
    (forall e db, users db <> [] -> startup_event hashpw e db = inr db) /\
    (forall e db,
       users db = [] ->
       exists db' customer new_feedbacks new_responses,
         startup_event hashpw e db = inr db' /\
         map role (users db')
         = [UserRole.CUSTOMER; UserRole.SUPPORT; UserRole.ADMIN] /\
         find (fun u => String.eqb (role u) UserRole.CUSTOMER) (users db')
         = Some customer /\
         feedbacks db' = (feedbacks db ++ new_feedbacks)%list /\
         List.length new_feedbacks = 10%nat /\
         Forall (fun f => f_user_id f = u_id customer) new_feedbacks /\
         responses db' = (responses db ++ new_responses)%list /\
         List.length new_responses = 5%nat) /\
    (forall e es,
       exists db',
         startup_event hashpw e empty_db = inr db' /\
         startup_events hashpw (e :: es) empty_db = inr db' /\
         List.length (users db') = 3%nat /\
         List.length (feedbacks db') = 10%nat /\
         List.length (responses db') = 5%nat /\
         exists admin open avg cats,
           dashboard (get_current_user (Some 3) db') db'
           = TemplateResponse "dashboard.html"
               (DashboardCtx admin 10 open avg cats)).
Proof.
  intros hashpw. split; [| split].
  - intros e db. apply startup_event_skips.
  - intros e db Hu.
    destruct (startup_event_seeds hashpw e db Hu)
      as (fbs & rs & Heq & Hfl & Hown & Hrl).
    eexists _, _, fbs, rs. split; [exact Heq |].
    cbn [users feedbacks responses map role find].
    change (String.eqb UserRole.CUSTOMER UserRole.CUSTOMER) with true.
    cbn [u_id]. repeat split; assumption.
  - intros e es.
    destruct (startup_event_seeds hashpw e empty_db eq_refl)
      as (fbs & rs & Heq & Hfl & Hown & Hrl).
    eexists. split; [exact Heq |].
    cbn [startup_events]. rewrite Heq. cbn [bind].
    split; [apply startup_events_skip; discriminate |].
    cbn [users feedbacks responses empty_db app List.length].
    split; [reflexivity | split; [assumption | split; [assumption |]]].
    do 4 eexists.
    unfold dashboard, get_current_user.
    cbn [users feedbacks find u_id Z.eqb Pos.eqb role].
    change (String.eqb UserRole.ADMIN UserRole.ADMIN) with true.
    cbn [negb]. unfold total_feedback. rewrite Hfl. reflexivity.
Qed.

Lemma startup_event_idempotent_witness :
  users seeded_db <> [] /\
  startup_event demo_hashpw demo_entropy seeded_db = inr seeded_db.
Proof.
  assert (H : users seeded_db <> []) by (vm_compute; discriminate).
  split; [exact H |].
  exact (proj1 (startup_event_idempotent demo_hashpw) demo_entropy seeded_db H).
Defined.

(** * Further properties of the handlers *)

(** ** Primary keys *)

Lemma next_id_above : forall ids i, In i ids -> i < next_id ids.
Proof.
  unfold next_id. induction ids as [| j t IH]; cbn [fold_right In]; intros i H.
  - contradiction.
  - pose proof (Z.le_max_l j (fold_right Z.max 0 t)).
    pose proof (Z.le_max_r j (fold_right Z.max 0 t)).
    destruct H as [-> | H]; [lia |]. specialize (IH i H). lia.
Qed.

Lemma next_id_positive : forall ids, 0 < next_id ids.
Proof.
  unfold next_id. induction ids as [| j t IH]; cbn [fold_right]; [lia |].
  pose proof (Z.le_max_r j (fold_right Z.max 0 t)). lia.
Qed.

Lemma keyed_snoc : forall ids, keyed ids -> keyed (ids ++ [next_id ids]).
Proof.
  intros ids [Hnd Hpos]. split.
  - apply NoDup_app; [assumption | repeat constructor; intros [] | ].
    intros i Hi [<- | []]. apply next_id_above in Hi. lia.
  - apply Forall_app. split; [assumption |].
    repeat constructor. apply next_id_positive.
Qed.

Lemma keyed_insert : forall (A : Type) (key : A -> Z) mk table,
  (forall id, key (mk id) = id) ->
  keyed (map key table) -> keyed (map key (insert key mk table)).
Proof.
  intros A key mk table Hmk H. unfold insert.
  rewrite map_app. simpl. rewrite Hmk. now apply keyed_snoc.
Qed.

Lemma keyed_insert_all : forall (A : Type) (key : A -> Z) rows table,
  Forall (fun mk => forall id, key (mk id) = id) rows ->
  keyed (map key table) -> keyed (map key (insert_all key rows table)).
Proof.
  intros A key rows. unfold insert_all.
  induction rows as [| mk rest IH]; intros table Hrows H; simpl.
  - assumption.
  - inversion Hrows; subst. apply IH; [assumption |].
    now apply keyed_insert.
Qed.

Lemma find_fresh : forall l,
  find (fun f => f_id f =? next_id (map f_id l)) l = None.
Proof.
  intros l. destruct (find _ l) as [f |] eqn:E; [| reflexivity].
  apply find_some in E. destruct E as [Hin Heq].
  apply Z.eqb_eq in Heq.
  pose proof (next_id_above (map f_id l) (f_id f) (in_map f_id l f Hin)). lia.
Qed.

Lemma find_app_none : forall (p : Feedback -> bool) l x,
  find p l = None -> find p (l ++ [x]) = if p x then Some x else None.
Proof.
  intros p l x. induction l as [| f t IH]; simpl; intros H.
  - reflexivity.
  - destruct (p f); [discriminate | auto].
Qed.

Lemma find_app_some : forall (p : Feedback -> bool) l x f,
  find p l = Some f -> find p (l ++ [x]) = Some f.
Proof.
  intros p l x f. induction l as [| g t IH]; simpl; intros H.
  - discriminate.
  - destruct (p g); auto.
Qed.

(** ** Creating feedback *)

(** X1.  Whoever the user is and whatever the form holds, the row
    [submit_feedback] inserts has status new, the current time as
    [created_at], no [closed_at] and the user as owner; its id is new, a
    lookup of that id in the store returned finds the row, and a lookup of
    any other id finds what it found before. *)
Theorem submit_feedback_then_lookup :
  forall title category description priority u now db,
    let db' := snd (submit_feedback title category description priority
                      (Some u) now db) in
    let id := next_id (map f_id (feedbacks db)) in
    query_feedback id db = None /\
    query_feedback id db'
    = Some (mkFeedback id title description category priority Status.NEW
              (Some now) None (u_id u)) /\
    (forall other, other <> id ->
       query_feedback other db' = query_feedback other db).
Proof.
  intros title category description priority u now db db' id.
  unfold db', id, query_feedback, submit_feedback, insert. simpl.
  split; [apply find_fresh | split].
  - rewrite find_app_none by apply find_fresh.
    simpl. now rewrite Z.eqb_refl.
  - intros other Hne.
    destruct (find (fun f => f_id f =? other) (feedbacks db)) as [f |] eqn:E.
    + now apply find_app_some.
    + rewrite find_app_none by assumption. simpl.
      destruct (Z.eqb_spec (next_id (map f_id (feedbacks db))) other);
        [congruence | reflexivity].
Qed.

(** ** The role gates *)

(** X2.  [add_response] and [update_status] write only for the roles
    [require_role] accepts: for no user, and for a user whose role is
    neither support nor admin, both answer with a 307 redirect to the
    detail view and return the store they were given. *)
Theorem staff_gate_closed :
  forall user feedback_id text value now db,
    require_role user [UserRole.SUPPORT; UserRole.ADMIN] = false ->
    add_response feedback_id text user now db
    = (RedirectResponse (detail_url feedback_id) 307, db) /\
    update_status feedback_id value user now db
    = (RedirectResponse (detail_url feedback_id) 307, db).
Proof.
  intros [u |] feedback_id text value now db H;
    unfold add_response, update_status; unfold require_role in H.
  - rewrite H. split; reflexivity.
  - split; reflexivity.
Qed.

Lemma staff_gate_closed_witness :
  require_role (get_current_user customer_session seeded_db)
    [UserRole.SUPPORT; UserRole.ADMIN] = false /\
  update_status 2 "closed" (get_current_user customer_session seeded_db)
    T0 seeded_db
  = (RedirectResponse (detail_url 2) 307, seeded_db).
Proof.
  split; [reflexivity |].
  apply (staff_gate_closed (get_current_user customer_session seeded_db)
           2 "hello" "closed" T0 seeded_db).
  reflexivity.
Defined.


(** X4.  A status update for an id that no row has writes nothing, for
    every user. *)
Theorem update_status_missing_row :
  forall feedback_id value user now db,
    query_feedback feedback_id db = None ->
    snd (update_status feedback_id value user now db) = db.
Proof.
  intros feedback_id value [u |] now db H; unfold update_status;
    [| reflexivity].
  destruct (negb _); [reflexivity |]. now rewrite H.
Qed.

Lemma update_status_missing_row_witness :
  query_feedback 999 seeded_db = None /\
  snd (update_status 999 "closed"
         (get_current_user support_session seeded_db) T0 seeded_db)
  = seeded_db.
Proof.
  split; [reflexivity |].
  apply update_status_missing_row. reflexivity.
Defined.

(** ** Reading one row *)


(** ** The counts of the dashboard *)

Lemma filter_length_bound : forall (p : Feedback -> bool) l,
  (List.length (filter p l) <= List.length l)%nat.
Proof.
  intros p l. induction l as [| f t IH]; simpl; [lia |].
  destruct (p f); simpl; lia.
Qed.

(** X6.  The breakdown has one entry per category of the enumeration, in
    its order.  Its counts add up to the number of rows whose category is
    one of the four, which is at most the total: a row stored with another
    category is counted in the total and in no entry.  The open items are
    at most the total. *)
Theorem breakdown_counts :
  forall fbs,
    map fst (cat_breakdown fbs) = Category.members /\
    breakdown_total (cat_breakdown fbs) = List.length (known_category fbs) /\
    (breakdown_total (cat_breakdown fbs) <= total_feedback fbs)%nat /\
    (open_items fbs <= total_feedback fbs)%nat.
Proof.
  intros fbs.
  assert (Hsum : breakdown_total (cat_breakdown fbs)
                 = List.length (known_category fbs)).
  { unfold cat_breakdown, breakdown_total, known_category, filter_category,
      str_in. simpl.
    induction fbs as [| f t IH]; simpl; [reflexivity |].
    destruct (String.eqb_spec (category f) Category.BUG) as [Eb | Eb];
      destruct (String.eqb_spec (category f) Category.FEATURE) as [Ef | Ef];
      destruct (String.eqb_spec (category f) Category.COMPLAINT) as [Ec | Ec];
      destruct (String.eqb_spec (category f) Category.PRAISE) as [Ep | Ep];
      try (rewrite Eb in *; discriminate);
      try (rewrite Ef in *; discriminate);
      try (rewrite Ec in *; discriminate);
      simpl; lia. }
  split; [reflexivity | split; [exact Hsum | split]].
  - rewrite Hsum. apply filter_length_bound.
  - apply filter_length_bound.
Qed.

(** A row of another category: 1 in total, 0 in every entry. *)
Example breakdown_unknown_category :
  cat_breakdown [mkFeedback 1 "t" "d" "other" "low" "new" (Some T0) None 1]
  = [("bug", 0%nat); ("feature", 0%nat); ("complaint", 0%nat);
     ("praise", 0%nat)].
Proof. reflexivity. Qed.

(** ** The average when every closed row has its timestamps *)



(** ** Sessions *)

Lemma find_by_id : forall l u,
  NoDup (map u_id l) -> In u l ->
  find (fun x => u_id x =? u_id u) l = Some u.
Proof.
  induction l as [| v t IH]; simpl; intros u Hnd Hin; [contradiction |].
  inversion Hnd as [| ? ? Hnotin Hnd']; subst.
  destruct Hin as [-> | Hin].
  - now rewrite Z.eqb_refl.
  - destruct (Z.eqb_spec (u_id v) (u_id u)) as [E | E].
    + exfalso. apply Hnotin. rewrite E. now apply in_map.
    + now apply IH.
Qed.

(** X8.  [get_current_user] resolves a session to a user of the table whose
    id is the one the session holds, and that id is not 0; without a
    session, with the id 0 or with an id no user has, it resolves to no
    user. *)
Theorem get_current_user_resolves :
  forall db,
    (forall session u,
       get_current_user session db = Some u ->
       session = Some (u_id u) /\ u_id u <> 0 /\ In u (users db)) /\
    (forall id,
       (forall u, In u (users db) -> u_id u <> id) ->
       get_current_user (Some id) db = None) /\
    get_current_user None db = None /\
    get_current_user (Some 0) db = None.
Proof.
  intros db. split; [| split; [| split; reflexivity]].
  - intros [id |] u H; simpl in H; [| discriminate].
    destruct (Z.eqb_spec id 0) as [E | E]; [discriminate |].
    apply find_some in H. destruct H as [Hin Heq].
    apply Z.eqb_eq in Heq. subst id. repeat split; assumption.
  - intros id H. simpl. destruct (id =? 0); [reflexivity |].
    destruct (find _ (users db)) as [u |] eqn:E; [| reflexivity].
    apply find_some in E. destruct E as [Hin Heq].
    apply Z.eqb_eq in Heq. exfalso. exact (H u Hin Heq).
Qed.

Lemma get_current_user_resolves_witness :
  get_current_user admin_session seeded_db
  = Some (mkUser 3 "admin" "salt$password" "admin") /\
  admin_session = Some 3 /\ 3 <> 0 /\
  In (mkUser 3 "admin" "salt$password" "admin") (users seeded_db).
Proof.
  split; [reflexivity |].
  apply (proj1 (get_current_user_resolves seeded_db) admin_session
           (mkUser 3 "admin" "salt$password" "admin")).
  reflexivity.
Defined.

(** X9.  [login] either renders the login view with the error and leaves
    the session as it was, or it has found a user with the submitted name
    whose stored hash verifies the submitted password: then it redirects
    with 302, the admin to /dashboard and anyone else to /feedback, and
    the session it leaves resolves to that user. *)
Theorem login_session :
  forall checkpw name password session db,
    keyed (map u_id (users db)) ->
    (fst (login checkpw name password session db)
     = TemplateResponse "login.html" (LoginCtx (Some "Invalid credentials")) /\
     snd (login checkpw name password session db) = session)
    \/
    (exists user,
       query_user_by_name name db = Some user /\
       username user = name /\
       checkpw password (password_hash user) = true /\
       fst (login checkpw name password session db)
       = RedirectResponse
           (if String.eqb (role user) UserRole.ADMIN
            then "/dashboard" else "/feedback") 302 /\
       snd (login checkpw name password session db) = Some (u_id user) /\
       get_current_user (snd (login checkpw name password session db)) db
       = Some user).
Proof.
  intros checkpw name password session db [Hnd Hpos].
  unfold login, verify_password.
  destruct (query_user_by_name name db) as [user |] eqn:Hq;
    [| left; split; reflexivity].
  destruct (checkpw password (password_hash user)) eqn:Hpw; simpl;
    [| left; split; reflexivity].
  right. exists user.
  pose proof Hq as Hfind.
  unfold query_user_by_name in Hfind. apply find_some in Hfind.
  destruct Hfind as [Hin Hname]. apply String.eqb_eq in Hname.
  split; [first [exact Hq | reflexivity] |].
  split; [assumption |].
  split; [first [exact Hpw | reflexivity] |].
  split; [destruct (String.eqb (role user) UserRole.ADMIN); reflexivity |].
  split; [reflexivity |].
  assert (Hid : 0 < u_id user).
  { rewrite Forall_forall in Hpos. apply Hpos. now apply in_map. }
  destruct (Z.eqb_spec (u_id user) 0) as [E | _]; [lia |].
  now apply find_by_id.
Qed.

Lemma seeded_users_keyed : keyed (map u_id (users seeded_db)).
Proof.
  split.
  - repeat constructor; simpl; intuition discriminate.
  - repeat constructor.
Qed.

Lemma login_session_witness :
  keyed (map u_id (users seeded_db)) /\
  ((fst (login demo_checkpw "admin" "password" None seeded_db)
    = TemplateResponse "login.html" (LoginCtx (Some "Invalid credentials")) /\
    snd (login demo_checkpw "admin" "password" None seeded_db) = None)
   \/
   (exists user,
      query_user_by_name "admin" seeded_db = Some user /\
      username user = "admin" /\
      demo_checkpw "password" (password_hash user) = true /\
      fst (login demo_checkpw "admin" "password" None seeded_db)
      = RedirectResponse
          (if String.eqb (role user) UserRole.ADMIN
           then "/dashboard" else "/feedback") 302 /\
      snd (login demo_checkpw "admin" "password" None seeded_db)
      = Some (u_id user) /\
      get_current_user
        (snd (login demo_checkpw "admin" "password" None seeded_db))
        seeded_db
      = Some user)).
Proof.
  split; [exact seeded_users_keyed |].
  exact (login_session demo_checkpw "admin" "password" None seeded_db
           seeded_users_keyed).
Defined.

(** The seeded admin logs in; a wrong password leaves no session. *)
Example login_admin :
  login demo_checkpw "admin" "password" None seeded_db
  = (RedirectResponse "/dashboard" 302, Some 3) /\
  login demo_checkpw "admin" "wrong" None seeded_db
  = (TemplateResponse "login.html" (LoginCtx (Some "Invalid credentials")),
     None).
Proof. split; reflexivity. Qed.

(** ** What the seeding stores *)

Lemma choice_in : forall (A : Type) e k (l : list A) x,
  choice e k l = inr x ->
  nth_error l (random e k mod List.length l) = Some x /\ In x l.
Proof.
  intros A e k l x. unfold choice.
  destruct (nth_error l (random e k mod List.length l)) as [y |] eqn:E;
    [| discriminate].
  intros H. inversion H; subst. split; [reflexivity |].
  eapply nth_error_In; eassumption.
Qed.

Lemma seed_feedback_spec : forall e cid i mk,
  seed_feedback e cid i = inr mk ->
  forall id, f_id (mk id) = id /\ seeded_row e cid (mk id).
Proof.
  intros e cid i mk. unfold seed_feedback.
  destruct (nth_error titles i) as [t |] eqn:Et; [| discriminate].
  destruct (nth_error descriptions i) as [d |] eqn:Ed; [| discriminate].
  destruct (choice e (4 * i) Category.members) as [? | c] eqn:Ec;
    [discriminate |].
  destruct (choice e (4 * i + 1) Priority.members) as [? | p] eqn:Ep;
    [discriminate |].
  destruct (choice e (4 * i + 2) Status.members) as [? | s] eqn:Es;
    [discriminate |].
  cbn [bind]. intros H id. inversion H; subst mk. clear H.
  apply choice_in in Ec, Ep, Es.
  split; [reflexivity |].
  unfold seeded_row. cbn [closed_at f_user_id category priority status
                          title description created_at].
  repeat split; try tauto.
  exists i, (randint_0_30 e (4 * i + 3)).
  assert (Hi : (i < 10)%nat).
  { apply (nth_error_Some titles i). congruence. }
  repeat split; try assumption.
  - unfold randint_0_30. lia.
  - unfold randint_0_30.
    pose proof (Nat.mod_upper_bound (random e (4 * i + 3)) 31). lia.
Qed.

Lemma seed_feedbacks_spec : forall e cid range fbs,
  seed_feedbacks e cid range = inr fbs ->
  Forall (fun mk => forall id, f_id (mk id) = id /\ seeded_row e cid (mk id))
         fbs.
Proof.
  intros e cid range.
  induction range as [| i rest IH]; intros fbs H; cbn [seed_feedbacks] in H.
  - inversion H. constructor.
  - destruct (seed_feedback e cid i) as [? | mk] eqn:Emk; [discriminate |].
    destruct (seed_feedbacks e cid rest) as [? | fbs0]; [discriminate |].
    cbn [bind] in H. inversion H; subst.
    constructor; [now apply (seed_feedback_spec e cid i) | now apply IH].
Qed.

Lemma reviewed_refl : forall l, Forall2 reviewed l l.
Proof. induction l; constructor; [now left | assumption]. Qed.

Lemma reviewed_trans : forall l1 l2 l3,
  Forall2 reviewed l1 l2 -> Forall2 reviewed l2 l3 -> Forall2 reviewed l1 l3.
Proof.
  intros l1 l2 l3 H12. revert l3.
  induction H12 as [| f g t1 t2 Hfg _ IH]; intros l3 H23.
  - inversion H23. constructor.
  - inversion H23 as [| ? h ? t3 Hgh Ht]; subst. constructor; [| now apply IH].
    destruct Hfg as [-> | [Hn ->]]; [assumption |].
    destruct Hgh as [-> | [Hn' _]]; [now right |].
    simpl in Hn'. discriminate.
Qed.

Lemma reviewed_update_nth : forall l j fb,
  nth_error l j = Some fb -> status fb = Status.NEW ->
  Forall2 reviewed l (update_nth j (set_status Status.IN_REVIEW) l) /\
  In (set_status Status.IN_REVIEW fb)
     (update_nth j (set_status Status.IN_REVIEW) l).
Proof.
  induction l as [| f t IH]; intros [| j] fb Hnth Hnew; simpl in *;
    try discriminate.
  - inversion Hnth; subst. split.
    + constructor; [now right | apply reviewed_refl].
    + now left.
  - destruct (IH j fb Hnth Hnew) as [H1 H2]. split.
    + constructor; [now left | assumption].
    + now right.
Qed.

Lemma reviewed_In : forall l l' g,
  Forall2 reviewed l l' -> In g l ->
  exists g', In g' l' /\ reviewed g g'.
Proof.
  intros l l' g H. induction H as [| f f' t t' Hf _ IH]; simpl; intros Hin.
  - contradiction.
  - destruct Hin as [-> | Hin].
    + exists f'. split; [now left | assumption].
    + destruct (IH Hin) as (g' & Hin' & Hr). exists g'. split; [now right | assumption].
Qed.

Lemma reviewed_ids : forall l l',
  Forall2 reviewed l l' -> map f_id l' = map f_id l.
Proof.
  intros l l' H. induction H as [| f g t t' Hfg _ IH]; simpl.
  - reflexivity.
  - rewrite IH. destruct Hfg as [-> | [_ ->]]; reflexivity.
Qed.

Lemma reviewed_seeded_row : forall e cid f g,
  reviewed f g -> seeded_row e cid f -> seeded_row e cid g.
Proof.
  intros e cid f g [-> | [_ ->]] H; [assumption |].
  unfold seeded_row in *. simpl.
  destruct H as (H1 & H2 & H3 & H4 & _ & H6).
  repeat split; try assumption. right. now left.
Qed.

(** The loop over the responses: the rows change only from new to
    in-review; each response made has the author given and refers to a row
    of the list whose status is not new. *)
Lemma seed_responses_spec : forall e sid range rs fbs rs' fbs',
  seed_responses e sid range rs fbs = inr (rs', fbs') ->
  Forall2 reviewed fbs fbs' /\
  exists new,
    rs' = (rs ++ new)%list /\
    Forall (fun mk : Z -> Response =>
              forall id,
                r_id (mk id) = id /\ r_user_id (mk id) = sid /\
                exists g, In g fbs' /\ f_id g = feedback_id (mk id) /\
                          status g <> Status.NEW) new.
Proof.
  intros e sid range.
  induction range as [| i rest IH]; intros rs fbs rs' fbs' H;
    cbn [seed_responses] in H.
  - inversion H; subst. split; [apply reviewed_refl |].
    exists []. split; [now rewrite app_nil_r | constructor].
  - destruct (choice e (40 + i) fbs) as [? | fb] eqn:Ec; [discriminate |].
    cbn [bind] in H. apply choice_in in Ec. destruct Ec as [Hnth Hin].
    apply IH in H. destruct H as (Hrev & new & -> & Hnew).
    assert (Hstep :
      Forall2 reviewed fbs
        (if String.eqb (status fb) Status.NEW
         then update_nth (random e (40 + i) mod List.length fbs)
                (set_status Status.IN_REVIEW) fbs
         else fbs) /\
      exists g1,
        In g1 (if String.eqb (status fb) Status.NEW
               then update_nth (random e (40 + i) mod List.length fbs)
                      (set_status Status.IN_REVIEW) fbs
               else fbs) /\
        f_id g1 = f_id fb /\ status g1 <> Status.NEW).
    { destruct (String.eqb_spec (status fb) Status.NEW) as [En | En].
      - destruct (reviewed_update_nth fbs _ fb Hnth En) as [H1 H2].
        split; [assumption |].
        exists (set_status Status.IN_REVIEW fb).
        repeat split; [assumption | discriminate].
      - split; [apply reviewed_refl |]. exists fb. repeat split; assumption. }
    destruct Hstep as (Hrev1 & g1 & Hin1 & Hid1 & Hst1).
    split; [eapply reviewed_trans; eassumption |].
    eexists (_ :: new). split; [now rewrite <- app_assoc |].
    constructor; [| assumption].
    intros id. cbn [r_id r_user_id feedback_id].
    split; [reflexivity | split; [reflexivity |]].
    destruct (reviewed_In _ _ g1 Hrev Hin1) as (g' & Hin' & Hr).
    exists g'. split; [assumption |].
    destruct Hr as [-> | [_ ->]]; split; try assumption.
    simpl. discriminate.
Qed.

(** The store the seeding makes of a store without users, by its parts. *)
Lemma startup_event_shape : forall hashpw e db,
  users db = [] ->
  exists fbs new rs fbs',
    seed_feedbacks e 1 (seq 0 10) = inr fbs /\
    insert_all f_id fbs (feedbacks db) = (feedbacks db ++ new)%list /\
    Forall2 (fun mk r => exists id, r = mk id) fbs new /\
    seed_responses e 2 (seq 0 5) [] new = inr (rs, fbs') /\
    startup_event hashpw e db
    = inr (mkDB
             [mkUser 1 "customer" (hashpw "password" (gensalt e 0)) UserRole.CUSTOMER;
              mkUser 2 "support" (hashpw "password" (gensalt e 1)) UserRole.SUPPORT;
              mkUser 3 "admin" (hashpw "password" (gensalt e 2)) UserRole.ADMIN]
             (feedbacks db ++ fbs')
             (insert_all r_id rs (responses db))).
Proof.
  intros hashpw e db Hu. unfold startup_event. rewrite Hu.
  rewrite seeded_users.
  rewrite next_with_role_first by reflexivity.
  rewrite next_with_role_second by reflexivity.
  cbn [bind u_id].
  destruct (seed_feedbacks_ok e 1 (seq 0 10)) as (fbs & Hfbs & Hlen & _).
  { repeat constructor. }
  rewrite Hfbs. cbn [bind].
  destruct (insert_all_app _ f_id fbs (feedbacks db)) as (new & Htable & Hnew).
  rewrite Htable.
  rewrite skipn_app, skipn_all, Nat.sub_diag, firstn_app, firstn_all, Nat.sub_diag.
  cbn [skipn firstn app]. rewrite app_nil_r.
  assert (Hne : new <> []).
  { apply Forall2_length in Hnew. intros E. rewrite E in Hnew.
    rewrite Hlen in Hnew. discriminate. }
  destruct (seed_responses_ok e 2 (seq 0 5) [] new Hne)
    as (rs & fbs' & Hrs & _ & _).
  rewrite Hrs. cbn [bind app].
  exists fbs, new, rs, fbs'. repeat split; assumption.
Qed.

Lemma inserted_rows : forall (A : Type) (P : A -> Prop) rows new,
  Forall (fun mk : Z -> A => forall id, P (mk id)) rows ->
  Forall2 (fun mk r => exists id, r = mk id) rows new ->
  Forall P new.
Proof.
  intros A P rows new Hrows H.
  induction H as [| mk r rows' new' (id & ->) _ IH].
  - constructor.
  - inversion Hrows; subst. constructor; [apply H1 | now apply IH].
Qed.

Lemma reviewed_Forall : forall e cid l l',
  Forall2 reviewed l l' -> Forall (seeded_row e cid) l ->
  Forall (seeded_row e cid) l'.
Proof.
  intros e cid l l' H. induction H as [| f g t t' Hfg _ IH]; intros Hl.
  - constructor.
  - inversion Hl; subst. constructor.
    + eapply reviewed_seeded_row; eassumption.
    + now apply IH.
Qed.

(** X10.  On a store without users the seeding appends ten feedback rows,
    and each of them, whatever was drawn, has no [closed_at], the customer
    (user 1) as owner, a category, a priority and a status of the
    enumerations, the title and description of one of the ten fixed
    entries, and a [created_at] between 0 and 30 whole days before a
    reading of the clock. *)
Theorem seeded_feedback_rows :
  forall hashpw e db db',
    users db = [] ->
    startup_event hashpw e db = inr db' ->
    exists new,
      feedbacks db' = (feedbacks db ++ new)%list /\
      List.length new = 10%nat /\
      Forall (seeded_row e 1) new.
Proof.
  intros hashpw e db db' Hu Hrun.
  destruct (startup_event_shape hashpw e db Hu)
    as (fbs & new & rs & fbs' & Hfbs & _ & Hnew & Hrs & Heq).
  destruct (startup_event_seeds hashpw e db Hu)
    as (nf & nr & Heq' & Hlen & _ & _).
  rewrite Heq in Heq'. inversion Heq' as [[Hf Hr]].
  apply app_inv_head in Hf. subst nf.
  rewrite Heq in Hrun. inversion Hrun; subst db'. cbn [feedbacks].
  exists fbs'. split; [reflexivity | split; [assumption |]].
  apply seed_responses_spec in Hrs. destruct Hrs as [Hrev _].
  apply (reviewed_Forall e 1 new fbs' Hrev).
  apply seed_feedbacks_spec in Hfbs.
  apply (inserted_rows _ (seeded_row e 1) fbs new); [| assumption].
  eapply Forall_impl; [| exact Hfbs]. intros mk H id. apply H.
Qed.

Lemma seeded_feedback_rows_witness :
  users empty_db = [] /\
  startup_event demo_hashpw demo_entropy empty_db = inr seeded_db /\
  exists new,
    feedbacks seeded_db = (feedbacks empty_db ++ new)%list /\
    List.length new = 10%nat /\
    Forall (seeded_row demo_entropy 1) new.
Proof.
  split; [reflexivity | split; [reflexivity |]].
  apply (seeded_feedback_rows demo_hashpw demo_entropy empty_db seeded_db);
    reflexivity.
Defined.

(** X11.  On a store without users the seeding appends five responses;
    each is written by the support user and refers to a feedback row of
    the store it leaves, and that row does not have the status new. *)
Theorem seeded_responses_refer :
  forall hashpw e db db',
    users db = [] ->
    startup_event hashpw e db = inr db' ->
    exists support new,
      find (fun u => String.eqb (role u) UserRole.SUPPORT) (users db')
      = Some support /\
      responses db' = (responses db ++ new)%list /\
      List.length new = 5%nat /\
      Forall (fun r =>
                r_user_id r = u_id support /\
                exists g, In g (feedbacks db') /\ f_id g = feedback_id r /\
                          status g <> Status.NEW) new.
Proof.
  intros hashpw e db db' Hu Hrun.
  destruct (startup_event_shape hashpw e db Hu)
    as (fbs & new & rs & fbs' & _ & _ & _ & Hrs & Heq).
  destruct (startup_event_seeds hashpw e db Hu)
    as (nf & nr & Heq' & _ & _ & Hlen).
  rewrite Heq in Heq'. inversion Heq' as [[Hf Hr]].
  rewrite Heq in Hrun. inversion Hrun; subst db'.
  cbn [users feedbacks responses find role].
  change (String.eqb UserRole.CUSTOMER UserRole.SUPPORT) with false.
  change (String.eqb UserRole.SUPPORT UserRole.SUPPORT) with true.
  cbn [u_id].
  eexists. exists nr. split; [reflexivity |].
  split; [assumption | split; [assumption |]].
  destruct (insert_all_app _ r_id rs (responses db)) as (newr & Hins & Hnewr).
  rewrite Hins in Hr. apply app_inv_head in Hr. subst newr.
  apply seed_responses_spec in Hrs. destruct Hrs as (_ & new0 & Hrs0 & Hall).
  simpl in Hrs0. subst new0.
  apply (inserted_rows _ _ rs nr); [| assumption].
  eapply Forall_impl; [| exact Hall].
  intros mk H id. destruct (H id) as (_ & Hauthor & g & Hin & Hid & Hst).
  split; [assumption |].
  exists g. split; [apply in_or_app; now right | split; assumption].
Qed.

Lemma seeded_responses_refer_witness :
  users empty_db = [] /\
  startup_event demo_hashpw demo_entropy empty_db = inr seeded_db /\
  exists support new,
    find (fun u => String.eqb (role u) UserRole.SUPPORT) (users seeded_db)
    = Some support /\
    responses seeded_db = (responses empty_db ++ new)%list /\
    List.length new = 5%nat /\
    Forall (fun r =>
              r_user_id r = u_id support /\
              exists g, In g (feedbacks seeded_db) /\ f_id g = feedback_id r /\
                        status g <> Status.NEW) new.
Proof.
  split; [reflexivity | split; [reflexivity |]].
  apply (seeded_responses_refer demo_hashpw demo_entropy empty_db seeded_db);
    reflexivity.
Defined.

(** ** Primary keys in the stores that are reached *)

Lemma well_keyed_handle : forall checkpw req db,
  well_keyed db -> well_keyed (db_after (handle checkpw req db)).
Proof.
  intros checkpw req db (Hu & Hf & Hr).
  pose proof (handle_effect checkpw req db) as H.
  destruct (route req).
  1-6, 8-9, 12: rewrite H; split; [| split]; assumption.
  - destruct H as (Eu & Er & [Ef | [u Ef]]); unfold well_keyed;
      rewrite Eu, Er, Ef; (split; [| split]); try assumption.
    rewrite map_app. simpl. now apply keyed_snoc.
  - destruct H as (Eu & Ef & [Er | [u Er]]); unfold well_keyed;
      rewrite Eu, Er, Ef; (split; [| split]); try assumption.
    rewrite map_app. simpl. now apply keyed_snoc.
  - destruct H as (Eu & Er & Ef & _); unfold well_keyed;
      rewrite Eu, Er, Ef; (split; [| split]); assumption.
Qed.

Lemma well_keyed_startup : forall hashpw e db db',
  well_keyed db -> startup_event hashpw e db = inr db' -> well_keyed db'.
Proof.
  intros hashpw e db db' Hk Hrun.
  destruct (users db) as [| u0 us] eqn:Hu.
  - destruct Hk as (_ & Hf & Hr).
    destruct (startup_event_shape hashpw e db Hu)
      as (fbs & new & rs & fbs' & Hfbs & Htable & _ & Hrs & Heq).
    rewrite Heq in Hrun. inversion Hrun; subst db'.
    apply seed_feedbacks_spec in Hfbs.
    apply seed_responses_spec in Hrs.
    destruct Hrs as (Hrev & new0 & Hrs0 & Hall). simpl in Hrs0. subst new0.
    split; [| split]; cbn [users feedbacks responses].
    + split.
      * repeat constructor; simpl; intuition discriminate.
      * repeat constructor.
    + rewrite map_app, (reviewed_ids _ _ Hrev), <- map_app, <- Htable.
      apply keyed_insert_all; [| assumption].
      eapply Forall_impl; [| exact Hfbs]. intros mk H id. apply H.
    + apply keyed_insert_all; [| assumption].
      eapply Forall_impl; [| exact Hall]. intros mk H id. apply H.
  - rewrite startup_event_skips in Hrun by (rewrite Hu; discriminate).
    inversion Hrun; subst. assumption.
Qed.

Lemma well_keyed_run : forall checkpw reqs db,
  well_keyed db -> well_keyed (run checkpw reqs db).
Proof.
  intros checkpw reqs. unfold run.
  induction reqs as [| req rest IH]; intros db H; simpl.
  - assumption.
  - apply IH. now apply well_keyed_handle.
Qed.

Lemma well_keyed_empty : well_keyed empty_db.
Proof. repeat split; constructor. Qed.

(** X12.  In every store reached from the empty one by the seeding and
    any sequence of requests, the ids of each table are pairwise different
    and positive; the seeding and every handler keep this from any store
    that has it. *)
Theorem primary_keys_invariant :
  forall hashpw checkpw,
    (forall e db db',
       well_keyed db -> startup_event hashpw e db = inr db' -> well_keyed db') /\
    (forall req db,
       well_keyed db -> well_keyed (db_after (handle checkpw req db))) /\
    (forall e reqs db,
       startup_event hashpw e empty_db = inr db ->
       well_keyed (run checkpw reqs db)).
Proof.
  intros hashpw checkpw. split; [| split].
  - intros e db db'. apply well_keyed_startup.
  - intros req db. apply well_keyed_handle.
  - intros e reqs db H. apply well_keyed_run.
    eapply well_keyed_startup; [apply well_keyed_empty | exact H].
Qed.

Lemma primary_keys_invariant_witness :
  startup_event demo_hashpw demo_entropy empty_db = inr seeded_db /\
  well_keyed
    (run demo_checkpw
       [mkRequest (POST_feedback_new "t" "bug" "d" "low") customer_session T0;
        mkRequest (POST_feedback_id_response 11 "hello") support_session T0]
       seeded_db).
Proof.
  split; [reflexivity |].
  apply (proj2 (proj2 (primary_keys_invariant demo_hashpw demo_checkpw))
           demo_entropy).
  reflexivity.
Defined.

(** ** Submitting, then listing *)

(** X13.  A feedback that was just submitted is on the list: any user who
    then asks for the list filtered by the category it was submitted with
    and by the status new, or without filters, is shown the new row. *)
Theorem submitted_feedback_is_listed :
  forall title category description priority u now db reader,
    let db' := snd (submit_feedback title category description priority
                      (Some u) now db) in
    let row := mkFeedback (next_id (map f_id (feedbacks db))) title
                 description category priority Status.NEW (Some now) None
                 (u_id u) in
    In row (listed (feedback_list (Some category) (Some Status.NEW)
                      (Some reader) db')) /\
    In row (listed (feedback_list None None (Some reader) db')).
Proof.
  intros title category description priority u now db reader db' row.
  assert (Hin : In row (feedbacks db')).
  { unfold db', submit_feedback, insert. simpl. apply in_or_app. right. now left. }
  split; rewrite feedback_list_rows; cbn [listed];
    (eapply Permutation_in; [apply order_by_perm |]);
    apply filter_In; (split; [exact Hin |]).
  - unfold passes, row. simpl. rewrite String.eqb_refl, !orb_true_r.
    reflexivity.
  - reflexivity.
Qed.
